(** * IRT dashboard: loader, 5-minute resampling and the two chart callbacks

    A shallow embedding of [graphing_code_dash_v3.py].

    Numbers.  The script computes on float64 columns.  Finite readings are
    modelled by exact rationals ([Q]); a missing reading ([pd.NA] / [NaN]) is
    [None].  Results of the statistical routines, which may also be infinite,
    live in [float].  Timestamps have minute resolution (the parse format is
    [%m/%d/%Y %H:%M]) and are modelled as minutes since the epoch ([Z]). *)

From Stdlib Require Import ZArith QArith Qabs String Ascii List Bool Lia Lqa.
From Stdlib Require Import Sorted Permutation DecimalString.
Import ListNotations.

Local Open Scope Z_scope.

(** ** Cells, channels and tables *)

(** A measurement cell: [None] is the missing marker. *)
Definition cell := option Q.

(** The three temperature columns the script selects. *)
Inductive sensor := TempC_target_1331 | TempC_target_1370 | TempC_target_1376.

Definition sensor_name (s : sensor) : string :=
  match s with
  | TempC_target_1331 => "TempC_target_1331"
  | TempC_target_1370 => "TempC_target_1370"
  | TempC_target_1376 => "TempC_target_1376"
  end.

(** One record of per-channel values. *)
Record Temps := mkTemps { c1331 : cell; c1370 : cell; c1376 : cell }.

Definition col (s : sensor) (r : Temps) : cell :=
  match s with
  | TempC_target_1331 => c1331 r
  | TempC_target_1370 => c1370 r
  | TempC_target_1376 => c1376 r
  end.

Definition map_temps (f : cell -> cell) (r : Temps) : Temps :=
  mkTemps (f (c1331 r)) (f (c1370 r)) (f (c1376 r)).

(** A row of the sheet as [read_excel] returns it: TIMESTAMP is an ordinary
    column (of type [T]: text before [to_datetime], minutes after it) and the
    row label is the position in the list. *)
Record Reading (T : Type) := mkReading { TIMESTAMP : T; temps : Temps }.
Arguments mkReading {T} _ _.
Arguments TIMESTAMP {T} _.
Arguments temps {T} _.

(** A time-indexed table: each row is (index label, data columns).  The index
    is not a data column. *)
Definition DataFrame := list (Z * Temps).

Definition index (df : DataFrame) : list Z := map fst df.

(** [df[sensor]]: one column, in row order. *)
Definition column (s : sensor) (df : DataFrame) : list cell :=
  map (fun r => col s (snd r)) df.

(** ** Loader *)

(** [df.set_index('TIMESTAMP')]: the column becomes the index and leaves the
    data columns. *)
Definition set_index (rows : list (Reading Z)) : DataFrame :=
  map (fun r => (TIMESTAMP r, temps r)) rows.

Definition sentinel : Q := -9999 # 1.

Definition replace_cell (old : Q) (c : cell) : cell :=
  match c with
  | Some q => if Qeq_bool q old then None else Some q
  | None => None
  end.

(** [df.replace(old, pd.NA)]: every data cell equal to [old] becomes missing;
    the index is left as it is. *)
Definition replace (old : Q) (df : DataFrame) : DataFrame :=
  map (fun r => (fst r, map_temps (replace_cell old) (snd r))) df.

(** ** Resampling: [.resample('5T').mean()] *)

(** Left edge of the 5-minute bucket containing [t]; buckets are aligned to
    midnight, hence to multiples of 5 minutes since the epoch. *)
Definition floor_5T (t : Z) : Z := 5 * (t / 5).

(** Buckets are closed on the left: [b <= t < b + 5]. *)
Definition in_bucket (b t : Z) : bool := (b <=? t) && (t <? b + 5).

(** The non-missing values of a list of cells. *)
Fixpoint present (l : list cell) : list Q :=
  match l with
  | [] => []
  | Some q :: l' => q :: present l'
  | None :: l' => present l'
  end.

Definition Qsum (l : list Q) : Q := fold_right Qplus 0%Q l.

Definition Qlen (l : list Q) : Q := inject_Z (Z.of_nat (length l)).

Definition Qmean (l : list Q) : Q := (Qsum l / Qlen l)%Q.

(** Mean with [skipna]: the mean of the non-missing values, missing when
    there is none. *)
Definition mean (l : list cell) : cell :=
  match present l with
  | [] => None
  | v => Some (Qmean v)
  end.

Definition bucket_rows (df : DataFrame) (b : Z) : DataFrame :=
  filter (fun r => in_bucket b (fst r)) df.

Definition bucket_mean (df : DataFrame) (b : Z) : Temps :=
  let rows := bucket_rows df b in
  mkTemps (mean (column TempC_target_1331 rows))
          (mean (column TempC_target_1370 rows))
          (mean (column TempC_target_1376 rows)).

(** The bucket labels from [lo] to [hi] in steps of 5 minutes; every bucket in
    the range is produced, also one no reading falls in. *)
Definition bins (lo hi : Z) : list Z :=
  map (fun k => lo + 5 * Z.of_nat k) (seq 0 (Z.to_nat ((hi - lo) / 5 + 1))).

Definition resample_5T_mean (df : DataFrame) : DataFrame :=
  match index df with
  | [] => []
  | t :: ts =>
      let lo := floor_5T (fold_right Z.min t ts) in
      let hi := floor_5T (fold_right Z.max t ts) in
      map (fun b => (b, bucket_mean df b)) (bins lo hi)
  end.

(** ** Process-wide state *)

(** The module-level variables the callbacks can see. *)
Record Globals := mkGlobals { df : DataFrame; df_resampled : DataFrame }.

(** ** Floating-point results *)

(** The value of a float64 expression: not-a-number, a signed infinity, or a
    finite number (kept exact). *)
Inductive float := NaN | Inf (negative : bool) | Fin (q : Q).

Definition of_cell (c : cell) : float :=
  match c with Some q => Fin q | None => NaN end.

Definition Qneg_b (q : Q) : bool := Qnum q <? 0.
Definition Qzero_b (q : Q) : bool := Qnum q =? 0.

Definition fneg (x : float) : float :=
  match x with
  | NaN => NaN
  | Inf s => Inf (negb s)
  | Fin q => Fin (- q)
  end.

Definition fabs (x : float) : float :=
  match x with
  | NaN => NaN
  | Inf _ => Inf false
  | Fin q => Fin (Qabs q)
  end.

Definition fadd (x y : float) : float :=
  match x, y with
  | NaN, _ | _, NaN => NaN
  | Inf a, Inf b => if Bool.eqb a b then Inf a else NaN
  | Inf a, Fin _ => Inf a
  | Fin _, Inf b => Inf b
  | Fin p, Fin q => Fin (p + q)
  end.

Definition fsub (x y : float) : float := fadd x (fneg y).

Definition fmul (x y : float) : float :=
  match x, y with
  | NaN, _ | _, NaN => NaN
  | Inf a, Inf b => Inf (xorb a b)
  | Inf a, Fin q | Fin q, Inf a =>
      if Qzero_b q then NaN else Inf (xorb a (Qneg_b q))
  | Fin p, Fin q => Fin (p * q)
  end.

(** Division with numpy's silent conventions: [x/0] is a signed infinity and
    [0/0] is not-a-number. *)
Definition fdiv (x y : float) : float :=
  match x, y with
  | NaN, _ | _, NaN => NaN
  | Inf _, Inf _ => NaN
  | Inf a, Fin q => Inf (xorb a (Qneg_b q))
  | Fin _, Inf _ => Fin 0
  | Fin p, Fin q =>
      if Qzero_b q then (if Qzero_b p then NaN else Inf (Qneg_b p))
      else Fin (p / q)
  end.

Definition fsum (l : list float) : float := fold_right fadd (Fin 0) l.

Definition flen (l : list float) : float :=
  Fin (inject_Z (Z.of_nat (length l))).

Definition fmean (l : list float) : float := fdiv (fsum l) (flen l).

(** ** Exceptions *)

Inductive result (A : Type) := Ok (a : A) | Raise (e : string).
Arguments Ok {A} _.
Arguments Raise {A} _.

(** ** Long-form tables *)

(** A table with a default row numbering whose columns are one timestamp
    column and the named value columns, as after [reset_index()]. *)
Record WideFrame := mkWide {
  w_id_name : string;
  w_id : list Z;
  w_columns : list (string * list cell) }.

(** The result of [melt]: one identifier column, one column of variable
    names, one column of values. *)
Record LongFrame := mkLong {
  l_id_name : string;
  l_var_name : string;
  l_value_name : string;
  l_rows : list (Z * string * cell) }.

(** The name [set_index] gives to the index and [resample] keeps. *)
Definition index_name : string := "TIMESTAMP".

(** [df[selected].reset_index()]: the chosen columns in the order chosen,
    with the index turned back into a column. *)
Definition select_reset_index (selected : list sensor) (d : DataFrame)
  : WideFrame :=
  mkWide index_name (index d)
         (map (fun s => (sensor_name s, column s d)) selected).

(** [melt(id_vars=[id], var_name=.., value_name=..)]: the value columns are
    stacked one after the other, each value next to its row's identifier. *)
Definition melt (id var_name value_name : string) (w : WideFrame)
  : result LongFrame :=
  if String.eqb id (w_id_name w) then
    Ok (mkLong id var_name value_name
          (flat_map (fun c => map (fun p => (fst p, fst c, snd p))
                                  (combine (w_id w) (snd c)))
                    (w_columns w)))
  else Raise "KeyError".

(** ** The numerical and statistical libraries

    What the script imports and the embedding does not compute itself: the
    timestamp parser, the square root, the Student t distribution function and
    the repeated-measures analysis of variance. *)
Record Library := mkLibrary {
  (** [pd.to_datetime(s, format='%m/%d/%Y %H:%M')] on one cell, in minutes;
      [None] when the text does not match the format. *)
  to_datetime : string -> option Z;
  (** [numpy.sqrt] on a finite non-negative number. *)
  np_sqrt : Q -> Q;
  (** [scipy.special.stdtr df t]: the Student t distribution function. *)
  stdtr : Z -> Q -> Q;
  (** The value [AnovaRM(data, depvar, subject, within).fit()] returns. *)
  AnovaResults : Type;
  AnovaRM_fit :
    LongFrame -> string -> string -> list string -> result AnovaResults;
  (** [str(results)]. *)
  results_str : AnovaResults -> string }.

(** ** Statistics *)

(** Sample variance (one degree of freedom removed) of finite numbers. *)
Definition Qvar (l : list Q) : Q :=
  let m := Qmean l in
  (Qsum (map (fun x => (x - m) * (x - m)) l) / (Qlen l - 1))%Q.

Section Statistics.
Variable L : Library.

Definition fsqrt (x : float) : float :=
  match x with
  | NaN => NaN
  | Inf s => if s then NaN else Inf false
  | Fin q => if Qneg_b q then NaN else Fin (np_sqrt L q)
  end.

Definition fstdtr (dof : Z) (t : float) : float :=
  match t with
  | NaN => NaN
  | Inf s => if s then Fin 0 else Fin 1
  | Fin q => Fin (stdtr L dof q)
  end.

(** [Series.std()]: missing values skipped, one degree of freedom removed. *)
Definition series_std (xs : list cell) : cell :=
  let v := present xs in
  if (length v <=? 1)%nat then None else Some (np_sqrt L (Qvar v)).

(** The trailing window ending at position [i]: positions [i+1-w .. i]. *)
Definition window (w i : nat) (xs : list cell) : list cell :=
  skipn (i + 1 - w) (firstn (i + 1) xs).

(** [Series.rolling(window=w).std()]: the minimum number of observations is
    the window size; a window with fewer non-missing values gives missing. *)
Definition rolling_std (w : nat) (xs : list cell) : list cell :=
  let min_periods := w in
  map (fun i =>
         let obs := present (window w i xs) in
         if (length obs <? min_periods)%nat || (length obs <=? 1)%nat
         then None
         else Some (np_sqrt L (Qvar obs)))
      (seq 0 (length xs)).

(** [scipy.stats._var(d, ddof=1)]. *)
Definition _var (d : list float) : float :=
  let m := fmean d in
  let x := map (fun v => fsub v m) d in
  fdiv (fsum (map (fun v => fmul v v) x)) (fsub (flen d) (Fin 1)).

(** [_ttest_finish], two-sided. *)
Definition _ttest_finish (dof : Z) (t : float) : float * float :=
  let prob := fmul (fstdtr dof (fneg (fabs t))) (Fin 2) in
  (t, prob).

(** [scipy.stats.ttest_rel(a, b)] with its default arguments: missing values
    propagate ([nan_policy='propagate']), the alternative is two-sided. *)
Definition ttest_rel (a b : list float) : result (float * float) :=
  if negb (length a =? length b)%nat then Raise "ValueError"
  else if (length a =? 0)%nat then Ok (NaN, NaN)
  else
    let n := flen a in
    let dof := Z.of_nat (length a) - 1 in
    let d := map (fun p => fsub (fst p) (snd p)) (combine a b) in
    let v := _var d in
    let dm := fmean d in
    let denom := fsqrt (fdiv v n) in
    let t := fdiv dm denom in
    Ok (_ttest_finish dof t).

End Statistics.

(** ** Text formatting: the [.4f] format *)

Definition newline : string := String (ascii_of_nat 10) EmptyString.

Definition digit (n : Z) : ascii := ascii_of_nat (48 + Z.to_nat n).

Definition decimal (n : Z) : string :=
  NilZero.string_of_uint (N.to_uint (Z.to_N n)).

(** The nearest integer, ties to the even one. *)
Definition round_half_even (q : Q) : Z :=
  let n := Qnum q in
  let d := Zpos (Qden q) in
  let fl := n / d in
  let r2 := 2 * (n mod d) in
  if r2 <? d then fl
  else if d <? r2 then fl + 1
  else if Z.even fl then fl else fl + 1.

Definition frac4 (m : Z) : string :=
  String (digit (m / 1000 mod 10))
    (String (digit (m / 100 mod 10))
       (String (digit (m / 10 mod 10))
          (String (digit (m mod 10)) EmptyString))).

(** [f"{x:.4f}"]. *)
Definition format_4f (x : float) : string :=
  match x with
  | NaN => "nan"
  | Inf s => if s then "-inf" else "inf"
  | Fin q =>
      let m := round_half_even (Qabs q * inject_Z 10000) in
      ((if Qneg_b q then "-" else "")
         ++ decimal (m / 10000) ++ "." ++ frac4 (m mod 10000))%string
  end.

(** ** Charts *)

Record ErrorY := mkErrorY {
  ey_type : string;
  ey_array : list cell;
  ey_visible : bool;
  ey_color : string;
  ey_thickness : Q;
  ey_width : Z }.

Record Scatter := mkScatter {
  x : list Z;
  y : list cell;
  mode : string;
  name : string;
  error_y : option ErrorY }.

Record Layout := mkLayout {
  title : string;
  xaxis_title : string;
  yaxis_title : string;
  template : string;
  hovermode : string;
  font_family : string;
  font_size : Z }.

Record Figure := mkFigure { data : list Scatter; layout : option Layout }.

(** [go.Figure()]. *)
Definition new_figure : Figure := mkFigure [] None.

Definition add_trace (fig : Figure) (tr : Scatter) : Figure :=
  mkFigure (data fig ++ [tr]) (layout fig).

Definition update_layout (fig : Figure) (l : Layout) : Figure :=
  mkFigure (data fig) (Some l).

(** ** Programs over the module-level state *)

(** A statement sequence: it sees the globals, may assign them, and either
    yields a value or raises. *)
Definition M (A : Type) : Type := Globals -> result A * Globals.

Definition ret {A} (a : A) : M A := fun g => (Ok a, g).

Definition bind {A B} (m : M A) (k : A -> M B) : M B :=
  fun g =>
    match m g with
    | (Ok a, g') => k a g'
    | (Raise e, g') => (Raise e, g')
    end.

Definition lift {A} (r : result A) : M A := fun g => (r, g).

Definition read_df : M DataFrame := fun g => (Ok (df g), g).
Definition read_df_resampled : M DataFrame := fun g => (Ok (df_resampled g), g).
Definition assign_df (d : DataFrame) : M unit :=
  fun g => (Ok tt, mkGlobals d (df_resampled g)).
Definition assign_df_resampled (d : DataFrame) : M unit :=
  fun g => (Ok tt, mkGlobals (df g) d).

Notation "x <- m ;; k" := (bind m (fun x => k))
  (at level 61, m at next level, right associativity).
Notation "m ;;; k" := (bind m (fun _ => k))
  (at level 61, right associativity).

(** [l[i]]. *)
Definition item {A} (l : list A) (i : nat) : M A :=
  lift (match nth_error l i with Some a => Ok a | None => Raise "IndexError" end).

(** [for a in l: s = body(a, s)]. *)
Fixpoint for_each {A S} (l : list A) (body : A -> S -> M S) (s : S) : M S :=
  match l with
  | [] => ret s
  | a :: l' => s' <- body a s ;; for_each l' body s'
  end.

Section Dashboard.
Variable L : Library.

(** *** Module level: lines 10-22 *)

(** [pd.to_datetime] on the whole column: one bad cell fails the call. *)
Fixpoint to_datetime_column (sheet : list (Reading string))
  : result (list (Reading Z)) :=
  match sheet with
  | [] => Ok []
  | r :: rest =>
      match to_datetime L (TIMESTAMP r) with
      | None => Raise "ValueError"
      | Some t =>
          match to_datetime_column rest with
          | Ok rows => Ok (mkReading t (temps r) :: rows)
          | Raise e => Raise e
          end
      end
  end.

(** The statements run once at import, on the sheet [read_excel] returned. *)
Definition startup (sheet : list (Reading string)) : M unit :=
  rows <- lift (to_datetime_column sheet) ;;
  assign_df (set_index rows) ;;;
  d <- read_df ;;
  assign_df (replace sentinel d) ;;;
  d <- read_df ;;
  assign_df_resampled (resample_5T_mean d).

(** *** First tab *)

Definition temp_layout : Layout :=
  mkLayout "IRT Temperatures (Every 5 Minutes)" "Timestamp"
           "Temperature (°C)" "plotly_dark" "x" "Open Sans" 14.

Definition update_temp_plot (selected_sensors : list sensor) : M Figure :=
  let fig := new_figure in
  fig <- for_each selected_sensors
           (fun sensor fig =>
              d <- read_df_resampled ;;
              ret (add_trace fig
                     (mkScatter (index d) (column sensor d)
                                "lines+markers" (sensor_name sensor) None)))
           fig ;;
  ret (update_layout fig temp_layout).

(** *** Second tab *)

Definition errorbars_layout : Layout :=
  mkLayout "IRT Temperatures with Error Bars (Every 5 Minutes)" "Timestamp"
           "Temperature (°C)" "plotly_dark" "x" "Open Sans" 14.

Definition paired_text (s0 s1 : sensor) (t_stat p_value : float) : string :=
  ("Paired t-test between " ++ sensor_name s0 ++ " and " ++ sensor_name s1
     ++ ":" ++ newline
     ++ "t-stat = " ++ format_4f t_stat
     ++ ", p-value = " ++ format_4f p_value)%string.

Definition update_errorbars_plot (selected_sensors : list sensor)
  : M (Figure * string) :=
  let fig := new_figure in
  fig <- for_each selected_sensors
           (fun sensor fig =>
              d <- read_df_resampled ;;
              let df_std := series_std L (column sensor d) in
              let error_bars := rolling_std L 5 (column sensor d) in
              ret (add_trace fig
                     (mkScatter (index d) (column sensor d)
                                "lines+markers" (sensor_name sensor)
                                (Some (mkErrorY "data" error_bars true "gray"
                                                (3 # 2) 3)))))
           fig ;;
  let anova_results_text := EmptyString in
  anova_results_text <-
    (if (length selected_sensors =? 2)%nat then
       d <- read_df_resampled ;;
       s0 <- item selected_sensors 0 ;;
       s1 <- item selected_sensors 1 ;;
       r <- lift (ttest_rel L (map of_cell (column s0 d))
                              (map of_cell (column s1 d))) ;;
       let t_stat := fst r in
       let p_value := snd r in
       ret (paired_text s0 s1 t_stat p_value)
     else if (2 <? length selected_sensors)%nat then
       d <- read_df_resampled ;;
       df_melted <- lift (melt "TIMESTAMP" "Sensor" "Temperature"
                               (select_reset_index selected_sensors d)) ;;
       anova_results <- lift (AnovaRM_fit L df_melted "Temperature"
                                          "TIMESTAMP" ["Sensor"%string]) ;;
       ret (results_str L anova_results)
     else ret anova_results_text) ;;
  ret (update_layout fig errorbars_layout, anova_results_text).

End Dashboard.

(** ** Notions used to state the properties *)

(** A table sits on the 5-minute grid when its index is a run of consecutive
    bucket labels: [t, t+5, t+10, ...] with [t] a multiple of 5 minutes. *)
Definition on_5T_grid (s : DataFrame) : Prop :=
  exists t, t mod 5 = 0 /\
            index s = map (fun k => t + 5 * Z.of_nat k) (seq 0 (length s)).

(** The readings of channel [s] that fall in bucket [b] and are neither
    missing nor the sentinel, in row order. *)
Fixpoint valid_readings (s : sensor) (rows : list (Reading Z)) (b : Z)
  : list Q :=
  match rows with
  | [] => []
  | r :: rest =>
      if in_bucket b (TIMESTAMP r) then
        match col s (temps r) with
        | Some q =>
            if Qeq_bool q sentinel then valid_readings s rest b
            else q :: valid_readings s rest b
        | None => valid_readings s rest b
        end
      else valid_readings s rest b
  end.

(** Rows whose labels are at least one bucket apart. *)
Definition spaced (s : DataFrame) : Prop :=
  StronglySorted (fun r1 r2 => fst r1 + 5 <= fst r2) s.

(** A cell holds the sentinel value. *)
Definition is_sentinel (c : cell) : bool :=
  match c with Some q => Qeq_bool q sentinel | None => false end.

(** A program that only reads [df_resampled]: its result is a function of
    that table and it hands the globals back as it found them. *)
Definition reads_only {A} (m : M A) : Prop :=
  exists f : DataFrame -> result A,
    forall g, m g = (f (df_resampled g), g).

(** The series of the first tab for channel [s]. *)
Definition temp_trace (d : DataFrame) (s : sensor) : Scatter :=
  mkScatter (index d) (column s d) "lines+markers" (sensor_name s) None.

(** The series of the second tab for channel [s]. *)
Definition errorbars_trace (L : Library) (d : DataFrame) (s : sensor)
  : Scatter :=
  mkScatter (index d) (column s d) "lines+markers" (sensor_name s)
            (Some (mkErrorY "data" (rolling_std L 5 (column s d)) true "gray"
                            (3 # 2) 3)).

(** The paired test as the callback invokes it on two channels. *)
Definition paired_result (L : Library) (d : DataFrame) (s0 s1 : sensor)
  : result (float * float) :=
  ttest_rel L (map of_cell (column s0 d)) (map of_cell (column s1 d)).

(** The long-form table the callback builds for the selected channels. *)
Definition long_rows (d : DataFrame) (selected : list sensor)
  : list (Z * string * cell) :=
  flat_map (fun s => map (fun r => (fst r, sensor_name s, col s (snd r))) d)
           selected.

(** The summary text of the second tab as a function of the table. *)
Definition summary_text (L : Library) (d : DataFrame) (selected : list sensor)
  : result string :=
  match selected with
  | [s0; s1] =>
      match paired_result L d s0 s1 with
      | Ok r => Ok (paired_text s0 s1 (fst r) (snd r))
      | Raise e => Raise e
      end
  | _ :: _ :: _ :: _ =>
      match AnovaRM_fit L (mkLong "TIMESTAMP" "Sensor" "Temperature"
                                  (long_rows d selected))
                        "Temperature" "TIMESTAMP" ["Sensor"%string] with
      | Ok a => Ok (results_str L a)
      | Raise e => Raise e
      end
  | _ => Ok EmptyString
  end.

(** [sub] occurs in [s]. *)
Definition contains (sub s : string) : Prop :=
  exists pre post, s = (pre ++ sub ++ post)%string.

Definition is_digit (c : ascii) : bool :=
  let n := nat_of_ascii c in ((48 <=? n) && (n <=? 57))%nat.

Fixpoint all_digits (s : string) : bool :=
  match s with
  | EmptyString => true
  | String c s' => is_digit c && all_digits s'
  end.

(** A number written with exactly four digits after the decimal point. *)
Definition four_decimals (s : string) : Prop :=
  exists int_part frac,
    s = (int_part ++ "." ++ frac)%string
    /\ String.length frac = 4%nat /\ all_digits frac = true.

(** The buckets present in both series, pairwise. *)
Fixpoint complete_pairs (a b : list cell) : list (Q * Q) :=
  match a, b with
  | x :: a', y :: b' =>
      match x, y with
      | Some p, Some q => (p, q) :: complete_pairs a' b'
      | _, _ => complete_pairs a' b'
      end
  | _, _ => []
  end.

(** The bucket-wise differences of two complete series. *)
Definition differences (qa qb : list Q) : list Q :=
  map (fun p => (fst p - snd p)%Q) (combine qa qb).

(** Properties of the imported numerical functions the statements rely on. *)
Definition stdtr_in_range (L : Library) : Prop :=
  forall dof t, (t <= 0)%Q -> (0 <= stdtr L dof t <= 1 # 2)%Q.

Definition str_nonempty (L : Library) : Prop :=
  forall r : AnovaResults L, results_str L r <> EmptyString.

(** ** Sample data for the examples *)

(** A library instance to run the callbacks on concrete tables.  Its
    numerical functions are rational stand-ins (a four-decimal square root,
    a rational curve with the range of the distribution function on the
    negative half-line, an analysis that echoes its input); no general
    statement below depends on them. *)
Definition sample_to_datetime (s : string) : option Z :=
  if String.eqb s "12/25/1969 01:21" then Some (-9999)
  else if String.eqb s "01/01/1970 00:00" then Some 0
  else if String.eqb s "01/01/1970 00:07" then Some 7
  else None.

Definition sample_sqrt (v : Q) : Q :=
  Z.sqrt (Qnum v * Zpos (Qden v) * 100000000) # (Qden v * 10000).

Definition sample_stdtr (dof : Z) (t : Q) : Q := (1 / (2 + 2 * (t * t)))%Q.

Definition sample_library : Library :=
  mkLibrary sample_to_datetime sample_sqrt sample_stdtr
            LongFrame (fun data _ _ _ => Ok data)
            (fun _ => "Anova"%string).

(** Three readings in the bucket starting at minute 0; two cells carry the
    sentinel. *)
Definition sample_rows : list (Reading Z) :=
  [mkReading 1 (mkTemps (Some (21 # 1)) (Some sentinel) None);
   mkReading 2 (mkTemps (Some sentinel) None None);
   mkReading 4 (mkTemps (Some (22 # 1)) None None)].

(** Two genuine readings whose mean is -9999. *)
Definition cold_rows : list (Reading Z) :=
  [mkReading 0 (mkTemps (Some (-9998 # 1)) None None);
   mkReading 1 (mkTemps (Some (-10000 # 1)) None None)].

(** A sheet whose first timestamp is minute -9999, with a sentinel cell. *)
Definition timed_sheet : list (Reading string) :=
  [mkReading "12/25/1969 01:21"%string
             (mkTemps (Some (20 # 1)) (Some sentinel) None);
   mkReading "01/01/1970 00:00"%string
             (mkTemps (Some (21 # 1)) (Some (22 # 1)) (Some (23 # 1)));
   mkReading "01/01/1970 00:07"%string
             (mkTemps (Some sentinel) (Some (24 # 1)) None)].

Definition timed_globals : Globals :=
  snd (startup sample_library timed_sheet (mkGlobals [] [])).

(** Six consecutive buckets: channel 1331 rises from 20 to 25, channel 1370
    stays at 20, channel 1376 misses its second bucket. *)
Definition trend_globals : Globals :=
  mkGlobals []
    [(0, mkTemps (Some (20 # 1)) (Some (20 # 1)) (Some (19 # 1)));
     (5, mkTemps (Some (21 # 1)) (Some (20 # 1)) None);
     (10, mkTemps (Some (22 # 1)) (Some (20 # 1)) (Some (21 # 1)));
     (15, mkTemps (Some (23 # 1)) (Some (20 # 1)) (Some (24 # 1)));
     (20, mkTemps (Some (24 # 1)) (Some (20 # 1)) (Some (22 # 1)));
     (25, mkTemps (Some (25 # 1)) (Some (20 # 1)) (Some (26 # 1)))].

(** Four buckets; channel 1331 misses the second one. *)
Definition gap_globals : Globals :=
  mkGlobals []
    [(0, mkTemps (Some (1 # 1)) (Some (2 # 1)) None);
     (5, mkTemps None (Some (3 # 1)) None);
     (10, mkTemps (Some (3 # 1)) (Some (5 # 1)) None);
     (15, mkTemps (Some (5 # 1)) (Some (5 # 1)) None)].

(** ** The page layout and the callbacks as the page calls them *)

(** A [dcc.Dropdown]: its options are (label, value) pairs and its value is
    the list of selected option values. *)
Record Dropdown := mkDropdown {
  dd_id : string;
  dd_options : list (string * string);
  dd_value : list string;
  dd_multi : bool }.

(** The dropdown of the first tab (lines 35-45). *)
Definition sensor_dropdown : Dropdown :=
  mkDropdown "sensor-dropdown"
    [("IRT 1331", "TempC_target_1331"); ("IRT 1370", "TempC_target_1370");
     ("IRT 1376", "TempC_target_1376")]%string
    ["TempC_target_1331"; "TempC_target_1370"; "TempC_target_1376"]%string
    true.

(** The dropdown of the second tab (lines 51-61). *)
Definition errorbars_dropdown : Dropdown :=
  mkDropdown "errorbars-dropdown"
    [("IRT 1331", "TempC_target_1331"); ("IRT 1370", "TempC_target_1370");
     ("IRT 1376", "TempC_target_1376")]%string
    ["TempC_target_1331"; "TempC_target_1370"]%string
    true.

(** The column a label names, if it is one of the resampled columns. *)
Definition sensor_of_name (key : string) : option sensor :=
  if String.eqb key "TempC_target_1331" then Some TempC_target_1331
  else if String.eqb key "TempC_target_1370" then Some TempC_target_1370
  else if String.eqb key "TempC_target_1376" then Some TempC_target_1376
  else None.

(** [df_resampled[key]] with a label: an unknown label raises. *)
Definition getitem (d : DataFrame) (key : string) : result (list cell) :=
  match sensor_of_name key with
  | Some s => Ok (column s d)
  | None => Raise "KeyError"
  end.

(** The first callback on the list of labels the page sends. *)
Definition update_temp_plot_by_name (selected_sensors : list string)
  : M Figure :=
  let fig := new_figure in
  fig <- for_each selected_sensors
           (fun sensor fig =>
              d <- read_df_resampled ;;
              y <- lift (getitem d sensor) ;;
              ret (add_trace fig
                     (mkScatter (index d) y "lines+markers" sensor None)))
           fig ;;
  ret (update_layout fig temp_layout).

(** The labels of a selection, all of them columns, as channels. *)
Fixpoint decode_selection (names : list string) : option (list sensor) :=
  match names with
  | [] => Some []
  | n :: rest =>
      match sensor_of_name n, decode_selection rest with
      | Some s, Some l => Some (s :: l)
      | _, _ => None
      end
  end.

(** A series without its error bars. *)
Definition strip_error (tr : Scatter) : Scatter :=
  mkScatter (x tr) (y tr) (mode tr) (name tr) None.

(** A series whose coordinate lists, and error array if any, have one entry
    per bucket. *)
Definition aligned (n : nat) (tr : Scatter) : Prop :=
  length (x tr) = n /\ length (y tr) = n
  /\ match error_y tr with
     | Some e => length (ey_array e) = n
     | None => True
     end.

(** Every label of the table is a bucket label: a multiple of five
    minutes. *)
Definition aligned_labels (d : DataFrame) : Prop :=
  Forall (fun t => t mod 5 = 0) (index d).

(** Two rows on bucket labels with a bucket missing between them. *)
Definition gapped_table : DataFrame :=
  [(0, mkTemps (Some (20 # 1)) None None);
   (10, mkTemps (Some (22 # 1)) None None)].

(** A table with one bucket only. *)
Definition single_globals : Globals :=
  mkGlobals [] [(0, mkTemps (Some (20 # 1)) (Some (21 # 1)) None)].

(** Five buckets in which channel 1370 is channel 1331 plus one. *)
Definition offset_globals : Globals :=
  mkGlobals []
    [(0, mkTemps (Some (20 # 1)) (Some (21 # 1)) None);
     (5, mkTemps (Some (22 # 1)) (Some (23 # 1)) None);
     (10, mkTemps (Some (21 # 1)) (Some (22 # 1)) None);
     (15, mkTemps (Some (25 # 1)) (Some (26 # 1)) None);
     (20, mkTemps (Some (24 # 1)) (Some (25 # 1)) None)].

(** Readings out of time order, two in one bucket, and a gap. *)
Definition scattered_rows : list (Reading Z) :=
  [mkReading 23 (mkTemps (Some (24 # 1)) None (Some (18 # 1)));
   mkReading 1 (mkTemps (Some (20 # 1)) (Some sentinel) None);
   mkReading 3 (mkTemps (Some (22 # 1)) (Some (19 # 1)) None);
   mkReading 11 (mkTemps (Some sentinel) (Some (21 # 1)) None)].

(** * Properties *)

(** ** Resampling *)

Lemma mean_single (c : cell) : mean [c] = c.
Proof.
  destruct c as [[n d]|]; [|reflexivity].
  unfold mean, Qmean, Qsum, Qlen, Qdiv, Qmult, Qplus; simpl.
  do 2 f_equal; [ring | now rewrite !Pos.mul_1_r].
Qed.

Lemma floor_5T_fixed (t : Z) : t mod 5 = 0 -> floor_5T t = t.
Proof. unfold floor_5T. intros H. Z.div_mod_to_equations. lia. Qed.

Lemma floor_5T_mod (t : Z) : floor_5T t mod 5 = 0.
Proof. unfold floor_5T. rewrite Z.mul_comm. apply Z.mod_mul. lia. Qed.

Lemma floor_5T_le (t : Z) : floor_5T t <= t < floor_5T t + 5.
Proof. unfold floor_5T. Z.div_mod_to_equations. lia. Qed.

Lemma fold_min_lower (t : Z) (ts : list Z) :
  Forall (fun u => t <= u) ts -> fold_right Z.min t ts = t.
Proof.
  induction 1 as [|u ts Hu _ IH]; simpl; [reflexivity|].
  rewrite IH. lia.
Qed.

Lemma fold_max_upper (t m : Z) (ts : list Z) :
  t <= m -> Forall (fun u => u <= m) ts -> fold_right Z.max t ts <= m.
Proof.
  intros Ht. induction 1 as [|u ts Hu _ IH]; simpl; lia.
Qed.

Lemma fold_max_in (t m : Z) (ts : list Z) :
  In m (t :: ts) -> m <= fold_right Z.max t ts.
Proof.
  induction ts as [|u ts IH]; simpl.
  - intros [->|[]]. lia.
  - intros [->|[->|H]].
    + specialize (IH (or_introl eq_refl)). lia.
    + lia.
    + specialize (IH (or_intror H)). lia.
Qed.

Lemma progression_spaced (t : Z) (s : DataFrame) (a : nat) :
  index s = map (fun k => t + 5 * Z.of_nat k) (seq a (length s)) ->
  spaced s.
Proof.
  set (f := fun k : nat => t + 5 * Z.of_nat k).
  revert a. induction s as [|r s IH]; intros a H; [constructor|].
  change (index (r :: s)) with (fst r :: index s) in H.
  cbn [length seq map] in H. injection H as Hr Hs.
  constructor; [now apply (IH (S a))|].
  apply Forall_forall. intros r' Hin.
  assert (Hi : In (fst r') (index s)) by now apply in_map.
  rewrite Hs in Hi. apply in_map_iff in Hi as (k & Hk & Hin').
  apply in_seq in Hin'. subst f. cbv beta in *. lia.
Qed.

Lemma bucket_rows_spaced (s : DataFrame) (r : Z * Temps) :
  spaced s -> In r s -> bucket_rows s (fst r) = [r].
Proof.
  unfold bucket_rows, in_bucket.
  induction 1 as [|r0 s Hs IH Hall]; intros Hin; [now destruct Hin|].
  simpl. destruct Hin as [->|Hin].
  - replace ((fst r <=? fst r) && (fst r <? fst r + 5)) with true
      by (symmetry; apply andb_true_iff; split; [apply Z.leb_le|apply Z.ltb_lt]; lia).
    f_equal. clear IH Hs.
    induction Hall as [|r1 s H1 _ IHs]; [reflexivity|].
    simpl.
    replace ((fst r <=? fst r1) && (fst r1 <? fst r + 5)) with false
      by (symmetry; apply andb_false_iff; right; apply Z.ltb_ge; lia).
    exact IHs.
  - assert (Hr : fst r0 + 5 <= fst r)
      by (rewrite Forall_forall in Hall; now apply Hall).
    replace ((fst r <=? fst r0) && (fst r0 <? fst r + 5)) with false
      by (symmetry; apply andb_false_iff; left; apply Z.leb_gt; lia).
    now apply IH.
Qed.

Lemma bucket_mean_spaced (s : DataFrame) (r : Z * Temps) :
  spaced s -> In r s -> bucket_mean s (fst r) = snd r.
Proof.
  intros Hs Hin. unfold bucket_mean. rewrite (bucket_rows_spaced s r Hs Hin).
  unfold column; simpl. rewrite !mean_single. now destruct r as [b []].
Qed.

Lemma bins_progression (t : Z) (n : nat) :
  bins t (t + 5 * Z.of_nat n)
  = map (fun k => t + 5 * Z.of_nat k) (seq 0 (S n)).
Proof.
  unfold bins. f_equal. f_equal.
  replace (t + 5 * Z.of_nat n - t) with (Z.of_nat n * 5) by lia.
  rewrite Z.div_mul by lia. lia.
Qed.

Lemma resample_index (d : DataFrame) (t : Z) (ts : list Z) :
  index d = t :: ts ->
  index (resample_5T_mean d)
  = bins (floor_5T (fold_right Z.min t ts)) (floor_5T (fold_right Z.max t ts)).
Proof.
  intros H. unfold resample_5T_mean. rewrite H. unfold index.
  rewrite map_map. simpl. apply map_id.
Qed.

(** A table on the grid is its own resampling. *)
Lemma resample_fixes_grid (s : DataFrame) :
  on_5T_grid s -> resample_5T_mean s = s.
Proof.
  intros (t & Ht & Hidx).
  destruct s as [|r s]; [reflexivity|].
  set (f := fun k : nat => t + 5 * Z.of_nat k) in *.
  assert (Hsp : spaced (r :: s)) by now apply (progression_spaced t _ 0%nat).
  assert (Hall : forall u, In u (fst r :: index s) ->
                           exists k, u = f k /\ (k <= length s)%nat).
  { intros u Hu. change (fst r :: index s) with (index (r :: s)) in Hu.
    rewrite Hidx in Hu. apply in_map_iff in Hu as (k & <- & Hk).
    apply in_seq in Hk. exists k. split; [reflexivity|]. simpl in Hk. lia. }
  assert (Hr : fst r = t).
  { change (index (r :: s)) with (fst r :: index s) in Hidx.
    cbn [length seq map] in Hidx. injection Hidx as Hr _.
    subst f. cbv beta in Hr. lia. }
  assert (Hmin : fold_right Z.min (fst r) (index s) = t).
  { rewrite fold_min_lower; [exact Hr|].
    apply Forall_forall. intros u Hu.
    destruct (Hall u (or_intror Hu)) as (k & -> & _). subst f. cbv beta. lia. }
  assert (Hmax : fold_right Z.max (fst r) (index s) = f (length s)).
  { apply Z.le_antisymm.
    - apply fold_max_upper; [subst f; cbv beta; lia|].
      apply Forall_forall. intros u Hu.
      destruct (Hall u (or_intror Hu)) as (k & -> & Hk). subst f. cbv beta. lia.
    - apply fold_max_in.
      change (fst r :: index s) with (index (r :: s)). rewrite Hidx.
      apply in_map. apply in_seq. simpl. lia. }
  unfold resample_5T_mean.
  change (index (r :: s)) with (fst r :: index s).
  cbv beta iota zeta. rewrite Hmin, Hmax.
  rewrite (floor_5T_fixed t Ht).
  rewrite (floor_5T_fixed (f (length s))).
  2:{ subst f. cbv beta. rewrite (Z.mul_comm 5).
      rewrite Z.mod_add by lia. exact Ht. }
  unfold f at 1. rewrite bins_progression.
  change (S (length s)) with (length (r :: s)). fold f. rewrite <- Hidx.
  unfold index. rewrite map_map.
  rewrite <- (map_id (r :: s)) at 2.
  apply map_ext_in. intros row Hin.
  rewrite (bucket_mean_spaced _ row Hsp Hin). now destruct row.
Qed.

(** The result of resampling is on the grid. *)
Lemma resample_on_grid (d : DataFrame) : on_5T_grid (resample_5T_mean d).
Proof.
  destruct (index d) as [|t ts] eqn:E.
  - unfold resample_5T_mean. rewrite E. exists 0. split; reflexivity.
  - exists (floor_5T (fold_right Z.min t ts)). split; [apply floor_5T_mod|].
    rewrite (resample_index d t ts E). unfold bins. f_equal. f_equal.
    unfold resample_5T_mean. rewrite E. cbv beta iota zeta.
    rewrite length_map. unfold bins.
    now rewrite length_map, length_seq.
Qed.

Lemma fold_min_in (t m : Z) (ts : list Z) :
  In m (t :: ts) -> fold_right Z.min t ts <= m.
Proof.
  induction ts as [|u ts IH]; simpl.
  - intros [->|[]]. lia.
  - intros [->|[->|H]].
    + specialize (IH (or_introl eq_refl)). lia.
    + lia.
    + specialize (IH (or_intror H)). lia.
Qed.

(** No reading is lost: the bucket of every row is a row of the result. *)
Lemma resample_covers (d : DataFrame) (t : Z) :
  In t (index d) -> In (floor_5T t) (index (resample_5T_mean d)).
Proof.
  intros Hin. destruct (index d) as [|t0 ts] eqn:E; [destruct Hin|].
  rewrite (resample_index d t0 ts E).
  pose proof (fold_min_in t0 t ts Hin) as Hlo.
  pose proof (fold_max_in t0 t ts Hin) as Hhi.
  set (lo := fold_right Z.min t0 ts) in *.
  set (hi := fold_right Z.max t0 ts) in *.
  assert (Ha : lo / 5 <= t / 5) by (apply Z.div_le_mono; lia).
  assert (Hb : t / 5 <= hi / 5) by (apply Z.div_le_mono; lia).
  unfold bins, floor_5T. apply in_map_iff.
  exists (Z.to_nat (t / 5 - lo / 5)). split; [lia|].
  apply in_seq. split; [lia|].
  replace (5 * (hi / 5) - 5 * (lo / 5)) with ((hi / 5 - lo / 5) * 5) by lia.
  rewrite Z.div_mul by lia. lia.
Qed.

(** Resampling a resampled table changes nothing. *)
Theorem resample_idempotent (d : DataFrame) :
  resample_5T_mean (resample_5T_mean d) = resample_5T_mean d.
Proof. apply resample_fixes_grid, resample_on_grid. Qed.

(** C8 (as amended): the series the resampling step gives back are exactly
    those whose labels are a run of consecutive 5-minute bucket labels (in
    order, without gap or repetition); every resampled table is one, so
    resampling twice is resampling once. *)
Theorem aligned_series_is_given_back (s : DataFrame) :
  (resample_5T_mean s = s <-> on_5T_grid s)
  /\ resample_5T_mean (resample_5T_mean s) = resample_5T_mean s.
Proof.
  split; [split|].
  - intros E. rewrite <- E. apply resample_on_grid.
  - apply resample_fixes_grid.
  - apply resample_fixes_grid, resample_on_grid.
Qed.

Lemma aligned_series_is_given_back_witness :
  on_5T_grid (df_resampled trend_globals)
  /\ resample_5T_mean (df_resampled trend_globals)
     = df_resampled trend_globals.
Proof.
  assert (H : on_5T_grid (df_resampled trend_globals))
    by (exists 0; split; reflexivity).
  split; [exact H|].
  exact (proj2 (proj1 (aligned_series_is_given_back
                         (df_resampled trend_globals))) H).
Defined.

(** C8 (as stated) fails: a series on bucket labels is not always given
    back.  With labels 0 and 10 the result has the labels 0, 5 and 10: the
    bucket between them is filled in with missing values. *)
Lemma gapped_series_is_not_given_back :
  ~ (forall s : DataFrame, aligned_labels s -> resample_5T_mean s = s).
Proof.
  intros H. specialize (H gapped_table).
  assert (Ha : aligned_labels gapped_table)
    by (repeat constructor).
  specialize (H Ha). apply (f_equal (@length _)) in H.
  vm_compute in H. discriminate H.
Qed.

(** ** The sentinel *)

Lemma col_map_temps (f : cell -> cell) (s : sensor) (r : Temps) :
  col s (map_temps f r) = f (col s r).
Proof. now destruct s. Qed.

Lemma col_bucket_mean (s : sensor) (d : DataFrame) (b : Z) :
  col s (bucket_mean d b) = mean (column s (bucket_rows d b)).
Proof. now destruct s. Qed.

(** After the replacement no cell of the table holds the sentinel. *)
Lemma replace_masks_sentinel (d : DataFrame) (t : Z) (r : Temps) (s : sensor) :
  In (t, r) (replace sentinel d) -> is_sentinel (col s r) = false.
Proof.
  unfold replace. intros H. apply in_map_iff in H as ([t' r'] & E & _).
  simpl in E. injection E as _ <-. rewrite col_map_temps.
  unfold replace_cell, is_sentinel.
  destruct (col s r') as [q|]; [|reflexivity].
  destruct (Qeq_bool q sentinel) eqn:Eq; [reflexivity|exact Eq].
Qed.

(** What reaches a bucket's mean: the readings in the bucket that are
    neither missing nor the sentinel. *)
Lemma present_bucket_valid (s : sensor) (rows : list (Reading Z)) (b : Z) :
  present (column s (bucket_rows (replace sentinel (set_index rows)) b))
  = valid_readings s rows b.
Proof.
  induction rows as [|r rows IH]; [reflexivity|].
  unfold bucket_rows, replace, set_index in *.
  cbn [map filter fst snd valid_readings].
  destruct (in_bucket b (TIMESTAMP r)); [|exact IH].
  cbn [column map present snd]. rewrite col_map_temps.
  unfold replace_cell. destruct (col s (temps r)) as [q|].
  - destruct (Qeq_bool q sentinel); [exact IH|].
    cbn [present]. f_equal. exact IH.
  - exact IH.
Qed.

Lemma resample_row (d : DataFrame) (b : Z) (r : Temps) :
  In (b, r) (resample_5T_mean d) -> r = bucket_mean d b.
Proof.
  unfold resample_5T_mean. destruct (index d) as [|t ts]; [intros []|].
  cbv zeta. intros H. apply in_map_iff in H as (b' & E & _).
  now injection E as -> <-.
Qed.

(** C3 (as amended): no sentinel reading contributes to a resampled value.
    Every -9999 in the source table is treated as missing before resampling,
    and the value of a bucket is the mean of the readings in the bucket that
    are neither missing nor the sentinel, or missing when there is none. *)
Theorem resampled_value_excludes_sentinel
  (rows : list (Reading Z)) (b : Z) (r : Temps) (s : sensor) :
  In (b, r) (resample_5T_mean (replace sentinel (set_index rows))) ->
  col s r = match valid_readings s rows b with
            | [] => None
            | v => Some (Qmean v)
            end.
Proof.
  intros H. rewrite (resample_row _ _ _ H), col_bucket_mean.
  unfold mean. now rewrite present_bucket_valid.
Qed.

Lemma resampled_value_excludes_sentinel_witness :
  In (0, mkTemps (Some (43 # 2)) None None)
     (resample_5T_mean (replace sentinel (set_index sample_rows)))
  /\ col TempC_target_1331 (mkTemps (Some (43 # 2)) None None)
     = match valid_readings TempC_target_1331 sample_rows 0 with
       | [] => None
       | v => Some (Qmean v)
       end.
Proof.
  assert (H : In (0, mkTemps (Some (43 # 2)) None None)
                 (resample_5T_mean (replace sentinel (set_index sample_rows))))
    by (vm_compute; left; reflexivity).
  split; [exact H|].
  exact (resampled_value_excludes_sentinel _ _ _ TempC_target_1331 H).
Defined.

(** C3 (as stated) fails: two genuine readings -9998 and -10000 in one bucket
    average to -9999, which then is a value of the resampled series. *)
Lemma sentinel_value_appears_as_mean :
  ~ (forall (rows : list (Reading Z)) (b : Z) (r : Temps) (s : sensor),
        In (b, r) (resample_5T_mean (replace sentinel (set_index rows))) ->
        is_sentinel (col s r) = false).
Proof.
  intros H.
  specialize (H cold_rows 0 (mkTemps (Some (-19998 # 2)) None None)
                TempC_target_1331).
  discriminate H. vm_compute. left. reflexivity.
Qed.

(** ** Loading *)

Lemma index_set_index (rows : list (Reading Z)) :
  index (set_index rows) = map TIMESTAMP rows.
Proof. unfold index, set_index. rewrite map_map. reflexivity. Qed.

Lemma index_replace (old : Q) (d : DataFrame) :
  index (replace old d) = index d.
Proof. unfold index, replace. rewrite map_map. reflexivity. Qed.

Lemma to_datetime_column_parsed (L : Library) (sheet : list (Reading string)) :
  forall rows,
    to_datetime_column L sheet = Ok rows ->
    map Some (map TIMESTAMP rows)
    = map (fun r => to_datetime L (TIMESTAMP r)) sheet.
Proof.
  induction sheet as [|r sheet IH]; simpl; intros rows H.
  - now injection H as <-.
  - destruct (to_datetime L (TIMESTAMP r)) as [t|]; [|discriminate].
    destruct (to_datetime_column L sheet) as [rows'|e]; [|discriminate].
    injection H as <-. simpl. f_equal. now apply IH.
Qed.

(** What the module-level statements leave in the globals. *)
Lemma startup_run (L : Library) (sheet : list (Reading string)) (g : Globals) :
  startup L sheet g
  = match to_datetime_column L sheet with
    | Ok rows =>
        (Ok tt,
         mkGlobals (replace sentinel (set_index rows))
                   (resample_5T_mean (replace sentinel (set_index rows))))
    | Raise e => (Raise e, g)
    end.
Proof.
  unfold startup, bind, lift.
  destruct (to_datetime_column L sheet); reflexivity.
Qed.

(** After a successful start the resampled table is the 5-minute mean of the
    indexed table with the sentinel masked. *)
Lemma startup_df_resampled (L : Library) (sheet : list (Reading string))
      (g0 g : Globals) :
  startup L sheet g0 = (Ok tt, g) ->
  exists rows,
    to_datetime_column L sheet = Ok rows
    /\ df g = replace sentinel (set_index rows)
    /\ df_resampled g = resample_5T_mean (replace sentinel (set_index rows)).
Proof.
  rewrite startup_run.
  destruct (to_datetime_column L sheet) as [rows|e]; [|discriminate].
  intros H. injection H as <-. now exists rows.
Qed.

(** C10: the sentinel replacement alters no timestamp.  The timestamp column
    is the index when the replacement runs, so the index of the loaded table is
    the list of parsed timestamps of the source rows, whatever their numeric
    value. *)
Theorem replacement_keeps_timestamps
  (L : Library) (sheet : list (Reading string)) (g0 g : Globals) :
  startup L sheet g0 = (Ok tt, g) ->
  map Some (index (df g)) = map (fun r => to_datetime L (TIMESTAMP r)) sheet.
Proof.
  rewrite startup_run.
  destruct (to_datetime_column L sheet) as [rows|e] eqn:E; [|discriminate].
  intros H. injection H as <-. simpl.
  rewrite index_replace, index_set_index.
  now apply to_datetime_column_parsed.
Qed.

Lemma replacement_keeps_timestamps_witness :
  startup sample_library timed_sheet (mkGlobals [] [])
  = (Ok tt, timed_globals)
  /\ map Some (index (df timed_globals))
     = [Some (-9999); Some 0; Some 7].
Proof.
  assert (H : startup sample_library timed_sheet (mkGlobals [] [])
              = (Ok tt, timed_globals)) by (vm_compute; reflexivity).
  split; [exact H|].
  exact (replacement_keeps_timestamps sample_library timed_sheet _ _ H).
Defined.

(** ** The callbacks as programs *)

Lemma reads_only_ret {A} (a : A) : reads_only (ret a).
Proof. now exists (fun _ => Ok a). Qed.

Lemma reads_only_lift {A} (r : result A) : reads_only (lift r).
Proof. now exists (fun _ => r). Qed.

Lemma reads_only_item {A} (l : list A) (i : nat) : reads_only (item l i).
Proof. apply reads_only_lift. Qed.

Lemma reads_only_read : reads_only read_df_resampled.
Proof. now exists (fun d => Ok d). Qed.

Lemma reads_only_bind {A B} (m : M A) (k : A -> M B) :
  reads_only m -> (forall a, reads_only (k a)) -> reads_only (bind m k).
Proof.
  intros [f Hf] Hk.
  exists (fun d => match f d with
                   | Ok a => fst (k a (mkGlobals [] d))
                   | Raise e => Raise e
                   end).
  intros g. unfold bind. rewrite Hf.
  destruct (f (df_resampled g)) as [a|e]; [|reflexivity].
  destruct (Hk a) as [fa Ha]. now rewrite !Ha.
Qed.

Lemma reads_only_for_each {A S} (l : list A) (body : A -> S -> M S) :
  (forall a s, reads_only (body a s)) ->
  forall s, reads_only (for_each l body s).
Proof.
  intros Hb. induction l as [|a l IH]; intros s; simpl.
  - apply reads_only_ret.
  - apply reads_only_bind; [apply Hb|exact IH].
Qed.

Create HintDb readers.

#[local] Hint Resolve reads_only_ret reads_only_lift reads_only_item
  reads_only_read : readers.

Ltac reader :=
  repeat first
    [ apply reads_only_bind; [|intro]
    | apply reads_only_for_each; intros
    | solve [auto with readers]
    | match goal with |- reads_only (if ?c then _ else _) => destruct c end ].

Lemma update_temp_plot_reads (selected : list sensor) :
  reads_only (update_temp_plot selected).
Proof. unfold update_temp_plot. reader. Qed.

Lemma update_errorbars_plot_reads (L : Library) (selected : list sensor) :
  reads_only (update_errorbars_plot L selected).
Proof. unfold update_errorbars_plot. reader. Qed.

(** C9: both callbacks leave the globals, hence the resampled table, as they
    found them, and what they return is a function of the selection and the
    resampled table only. *)
Theorem callbacks_are_pure (L : Library) (selected : list sensor) :
  (forall g, snd (update_temp_plot selected g) = g)
  /\ (forall g, snd (update_errorbars_plot L selected g) = g)
  /\ (forall g g', df_resampled g = df_resampled g' ->
        fst (update_temp_plot selected g) = fst (update_temp_plot selected g')
        /\ fst (update_errorbars_plot L selected g)
           = fst (update_errorbars_plot L selected g')).
Proof.
  destruct (update_temp_plot_reads selected) as [f Hf].
  destruct (update_errorbars_plot_reads L selected) as [h Hh].
  repeat split; intros.
  - now rewrite Hf.
  - now rewrite Hh.
  - rewrite !Hf. simpl. now f_equal.
  - rewrite !Hh. simpl. now f_equal.
Qed.

(** The loops, unrolled. *)
Lemma temp_loop (selected : list sensor) (fig : Figure) (g : Globals) :
  for_each selected
    (fun sensor fig =>
       d <- read_df_resampled ;;
       ret (add_trace fig
              (mkScatter (index d) (column sensor d)
                         "lines+markers" (sensor_name sensor) None)))
    fig g
  = (Ok (mkFigure (data fig ++ map (temp_trace (df_resampled g)) selected)
                  (layout fig)), g).
Proof.
  revert fig. induction selected as [|s l IH]; intros fig; simpl.
  - unfold ret. rewrite app_nil_r. now destruct fig.
  - unfold bind at 1. unfold bind at 1. unfold read_df_resampled, ret.
    rewrite IH. simpl. now rewrite <- app_assoc.
Qed.

Lemma errorbars_loop (L : Library) (selected : list sensor) (fig : Figure)
      (g : Globals) :
  for_each selected
    (fun sensor fig =>
       d <- read_df_resampled ;;
       let df_std := series_std L (column sensor d) in
       let error_bars := rolling_std L 5 (column sensor d) in
       ret (add_trace fig
              (mkScatter (index d) (column sensor d)
                         "lines+markers" (sensor_name sensor)
                         (Some (mkErrorY "data" error_bars true "gray"
                                         (3 # 2) 3)))))
    fig g
  = (Ok (mkFigure (data fig ++ map (errorbars_trace L (df_resampled g)) selected)
                  (layout fig)), g).
Proof.
  revert fig. induction selected as [|s l IH]; intros fig; simpl.
  - unfold ret. rewrite app_nil_r. now destruct fig.
  - unfold bind at 1. unfold bind at 1. unfold read_df_resampled, ret.
    rewrite IH. simpl. now rewrite <- app_assoc.
Qed.

(** C7: the first tab returns one line+marker series per selected channel,
    in selection order, with the bucket timestamps as x and the channel's
    resampled temperatures as y; the empty selection gives a chart without
    series, and no selection raises. *)
Theorem update_temp_plot_series (selected : list sensor) (g : Globals) :
  fst (update_temp_plot selected g)
  = Ok (mkFigure
          (map (fun s => mkScatter (index (df_resampled g))
                                   (column s (df_resampled g))
                                   "lines+markers" (sensor_name s) None)
               selected)
          (Some temp_layout))
  /\ fst (update_temp_plot [] g) = Ok (mkFigure [] (Some temp_layout)).
Proof.
  split; [|reflexivity].
  unfold update_temp_plot. unfold bind at 1. rewrite temp_loop. reflexivity.
Qed.

(** ** The second tab *)

Lemma combine_map_same {A B C} (f : A -> B) (h : A -> C) (l : list A) :
  combine (map f l) (map h l) = map (fun a => (f a, h a)) l.
Proof. induction l; simpl; congruence. Qed.

Lemma melt_selected (d : DataFrame) (selected : list sensor) :
  melt "TIMESTAMP" "Sensor" "Temperature" (select_reset_index selected d)
  = Ok (mkLong "TIMESTAMP" "Sensor" "Temperature" (long_rows d selected)).
Proof.
  unfold melt, select_reset_index, long_rows. simpl. do 2 f_equal.
  induction selected as [|s l IH]; [reflexivity|].
  simpl. rewrite IH. f_equal.
  unfold index, column. rewrite combine_map_same, map_map. reflexivity.
Qed.

Lemma update_errorbars_plot_run (L : Library) (selected : list sensor)
      (g : Globals) :
  update_errorbars_plot L selected g
  = (match summary_text L (df_resampled g) selected with
     | Ok text =>
         Ok (mkFigure (map (errorbars_trace L (df_resampled g)) selected)
                      (Some errorbars_layout), text)
     | Raise e => Raise e
     end, g).
Proof.
  unfold update_errorbars_plot. unfold bind at 1. rewrite errorbars_loop.
  cbn [data layout new_figure app].
  destruct selected as [|s0 [|s1 [|s2 l]]].
  - reflexivity.
  - reflexivity.
  - cbn [length Nat.eqb summary_text]. unfold paired_result.
    unfold bind, read_df_resampled, item, lift, ret. cbn [nth_error].
    destruct (ttest_rel L _ _) as [[t p]|e]; reflexivity.
  - cbn [length Nat.eqb Nat.ltb Nat.leb summary_text].
    unfold bind, read_df_resampled, lift, ret.
    rewrite melt_selected.
    destruct (AnovaRM_fit L _ _ _ _) as [a|e]; reflexivity.
Qed.

(** C5: with no channel or exactly one channel selected the summary text of
    the second tab is the empty string (and the callback does not raise). *)
Theorem few_channels_empty_text (L : Library) (selected : list sensor)
        (g : Globals) :
  (length selected <= 1)%nat ->
  exists fig, fst (update_errorbars_plot L selected g) = Ok (fig, EmptyString).
Proof.
  intros H. rewrite update_errorbars_plot_run.
  destruct selected as [|s0 [|s1 l]]; simpl in *; try lia; eexists; reflexivity.
Qed.

Lemma few_channels_empty_text_witness :
  (length [TempC_target_1370] <= 1)%nat
  /\ exists fig,
       fst (update_errorbars_plot sample_library [TempC_target_1370]
                                  timed_globals) = Ok (fig, EmptyString).
Proof.
  assert (H : (length [TempC_target_1370] <= 1)%nat) by (simpl; lia).
  split; [exact H|].
  exact (few_channels_empty_text sample_library [TempC_target_1370]
                                 timed_globals H).
Defined.

(** ** Error bars: the rolling standard deviation *)

Lemma present_length_le (l : list cell) : (length (present l) <= length l)%nat.
Proof. induction l as [|[q|] l IH]; simpl; lia. Qed.

Lemma present_full (l : list cell) :
  length (present l) = length l -> l = map Some (present l).
Proof.
  induction l as [|[q|] l IH]; simpl; intros H.
  - reflexivity.
  - f_equal. apply IH. lia.
  - pose proof (present_length_le l). lia.
Qed.

Lemma present_some (l : list Q) : present (map Some l) = l.
Proof. induction l as [|q l IH]; [reflexivity|]. cbn [map present]. now f_equal. Qed.

Lemma window_length (w i : nat) (xs : list cell) :
  (length (window w i xs) <= Nat.min w (i + 1))%nat.
Proof. unfold window. rewrite length_skipn, length_firstn. lia. Qed.

Lemma window_trailing (i : nat) (xs : list cell) :
  (4 <= i)%nat -> window 5 i xs = firstn 5 (skipn (i - 4) xs).
Proof.
  intros H. unfold window. rewrite skipn_firstn_comm.
  replace (i + 1 - 5)%nat with (i - 4)%nat by lia.
  now replace (i + 1 - (i - 4))%nat with 5%nat by lia.
Qed.

Lemma rolling_std_nth (L : Library) (w : nat) (xs : list cell) (i : nat) :
  (i < length xs)%nat ->
  nth_error (rolling_std L w xs) i
  = Some (let obs := present (window w i xs) in
          if (length obs <? w)%nat || (length obs <=? 1)%nat then None
          else Some (np_sqrt L (Qvar obs))).
Proof.
  intros H. unfold rolling_std. cbv zeta.
  rewrite nth_error_map, nth_error_nth' with (d := 0%nat)
    by (rewrite length_seq; exact H).
  rewrite seq_nth by exact H. reflexivity.
Qed.

Lemma rolling_std_length (L : Library) (w : nat) (xs : list cell) :
  length (rolling_std L w xs) = length xs.
Proof. unfold rolling_std. now rewrite length_map, length_seq. Qed.

(** The rolling standard deviation of one series, position by position. *)
Lemma rolling_std_window (L : Library) (xs : list cell) (i : nat) :
  (i < length xs)%nat ->
  ((i < 4)%nat -> nth_error (rolling_std L 5 xs) i = Some None)
  /\ (forall v, nth_error (rolling_std L 5 xs) i = Some (Some v) ->
        (4 <= i)%nat
        /\ exists win, firstn 5 (skipn (i - 4) xs) = map Some win
                       /\ length win = 5%nat
                       /\ v = np_sqrt L (Qvar win)).
Proof.
  intros Hi. rewrite (rolling_std_nth L 5 xs i Hi). cbv zeta.
  pose proof (window_length 5 i xs) as Hw.
  pose proof (present_length_le (window 5 i xs)) as Hp.
  split.
  - intros H4.
    replace (length (present (window 5 i xs)) <? 5)%nat with true
      by (symmetry; apply Nat.ltb_lt; lia).
    reflexivity.
  - intros v Hv.
    destruct (length (present (window 5 i xs)) <? 5)%nat eqn:E5;
      [discriminate|].
    apply Nat.ltb_ge in E5.
    destruct (length (present (window 5 i xs)) <=? 1)%nat; [discriminate|].
    cbn [orb] in Hv. injection Hv as <-.
    assert (H4 : (4 <= i)%nat) by lia.
    split; [exact H4|].
    exists (present (window 5 i xs)). rewrite <- (window_trailing i xs H4).
    repeat split; [apply present_full|]; lia.
Qed.

(** A complete trailing window has a value. *)
Lemma rolling_std_complete (L : Library) (xs : list cell) (i : nat)
      (win : list Q) :
  (4 <= i)%nat ->
  firstn 5 (skipn (i - 4) xs) = map Some win ->
  length win = 5%nat ->
  nth_error (rolling_std L 5 xs) i = Some (Some (np_sqrt L (Qvar win))).
Proof.
  intros H4 Hwin Hlen.
  assert (Hi : (i < length xs)%nat).
  { apply (f_equal (@length _)) in Hwin.
    rewrite length_firstn, length_skipn, length_map in Hwin. lia. }
  rewrite (rolling_std_nth L 5 xs i Hi). cbv zeta.
  rewrite (window_trailing i xs H4), Hwin, present_some, Hlen.
  reflexivity.
Qed.

Lemma errorbars_figure (L : Library) (selected : list sensor) (g : Globals)
      (fig : Figure) (text : string) :
  fst (update_errorbars_plot L selected g) = Ok (fig, text) ->
  data fig = map (errorbars_trace L (df_resampled g)) selected.
Proof.
  rewrite update_errorbars_plot_run. cbn [fst].
  destruct (summary_text L (df_resampled g) selected); [|discriminate].
  intros H. now injection H as <- _.
Qed.

(** C2: on the chart of the second tab, the error array of the series of
    every selected channel holds, at bucket position [i], the standard
    deviation of the five buckets [i-4 .. i] of that channel.  For [i < 4]
    the entry is missing (not zero); a value is present exactly when
    [i >= 4] and those five buckets are all present, and it is then their
    standard deviation. *)
Theorem error_bars_trailing_window
  (L : Library) (selected : list sensor) (g : Globals)
  (fig : Figure) (text : string) (k : nat) (s : sensor) :
  fst (update_errorbars_plot L selected g) = Ok (fig, text) ->
  nth_error selected k = Some s ->
  exists tr e,
    nth_error (data fig) k = Some tr
    /\ name tr = sensor_name s
    /\ error_y tr = Some e
    /\ length (ey_array e) = length (y tr)
    /\ forall i, (i < length (column s (df_resampled g)))%nat ->
         ((i < 4)%nat -> nth_error (ey_array e) i = Some None)
         /\ (forall v, nth_error (ey_array e) i = Some (Some v) <->
               ((4 <= i)%nat
                /\ exists win,
                     firstn 5 (skipn (i - 4) (column s (df_resampled g)))
                     = map Some win
                     /\ length win = 5%nat
                     /\ v = np_sqrt L (Qvar win))).
Proof.
  intros Hrun Hk. apply errorbars_figure in Hrun.
  exists (errorbars_trace L (df_resampled g) s).
  eexists. rewrite Hrun, nth_error_map, Hk.
  split; [reflexivity|]. split; [reflexivity|]. split; [reflexivity|].
  cbn [ey_array y errorbars_trace]. split.
  - unfold column at 2. rewrite length_map.
    rewrite rolling_std_length. unfold column. now rewrite length_map.
  - intros i Hi. split; [now apply rolling_std_window|].
    intros v. split.
    + now apply rolling_std_window.
    + intros (H4 & win & Hwin & Hlen & ->).
      now apply rolling_std_complete.
Qed.

Lemma error_bars_trailing_window_witness :
  exists fig text,
    fst (update_errorbars_plot sample_library
           [TempC_target_1331; TempC_target_1376] trend_globals)
    = Ok (fig, text)
    /\ nth_error [TempC_target_1331; TempC_target_1376] 0
       = Some TempC_target_1331
    /\ exists tr e,
         nth_error (data fig) 0 = Some tr
         /\ name tr = sensor_name TempC_target_1331
         /\ error_y tr = Some e
         /\ length (ey_array e) = length (y tr)
         /\ forall i,
              (i < length (column TempC_target_1331
                                  (df_resampled trend_globals)))%nat ->
              ((i < 4)%nat -> nth_error (ey_array e) i = Some None)
              /\ (forall v, nth_error (ey_array e) i = Some (Some v) <->
                    ((4 <= i)%nat
                     /\ exists win,
                          firstn 5 (skipn (i - 4)
                                      (column TempC_target_1331
                                              (df_resampled trend_globals)))
                          = map Some win
                          /\ length win = 5%nat
                          /\ v = np_sqrt sample_library (Qvar win))).
Proof.
  eexists. eexists.
  split; [vm_compute; reflexivity|].
  split; [reflexivity|].
  eapply (error_bars_trailing_window sample_library
            [TempC_target_1331; TempC_target_1376] trend_globals);
    [vm_compute|]; reflexivity.
Defined.

(** On the six-bucket trend table the error array of channel 1331 is
    missing at positions 0 to 3 and holds the deviation of the five buckets
    that end at positions 4 and 5. *)
Example trend_error_bars :
  rolling_std sample_library 5
    (column TempC_target_1331 (df_resampled trend_globals))
  = [None; None; None; None;
     Some (np_sqrt sample_library
             (Qvar [20 # 1; 21 # 1; 22 # 1; 23 # 1; 24 # 1]));
     Some (np_sqrt sample_library
             (Qvar [21 # 1; 22 # 1; 23 # 1; 24 # 1; 25 # 1]))].
Proof. reflexivity. Qed.

(** ** Three or more channels: the repeated-measures analysis *)

Lemma long_rows_length (d : DataFrame) (selected : list sensor) :
  length (long_rows d selected) = (length selected * length d)%nat.
Proof.
  unfold long_rows. induction selected as [|s l IH]; [reflexivity|].
  cbn [flat_map length]. rewrite length_app, length_map, IH. lia.
Qed.

Lemma long_rows_nth (d : DataFrame) (selected : list sensor)
      (k i : nat) (s : sensor) (t : Z) (r : Temps) :
  nth_error selected k = Some s ->
  nth_error d i = Some (t, r) ->
  nth_error (long_rows d selected) (k * length d + i)
  = Some (t, sensor_name s, col s r).
Proof.
  intros Hk Hi. revert k Hk.
  unfold long_rows. induction selected as [|s' l IH]; intros k Hk.
  - now destruct k.
  - cbn [flat_map]. destruct k as [|k].
    + injection Hk as ->. cbn [Nat.mul Nat.add].
      rewrite nth_error_app1
        by (rewrite length_map; apply nth_error_Some; congruence).
      rewrite nth_error_map, Hi. reflexivity.
    + cbn [nth_error] in Hk.
      rewrite nth_error_app2 by (rewrite length_map; simpl; lia).
      rewrite length_map.
      replace (S k * length d + i - length d)%nat
        with (k * length d + i)%nat by (simpl; lia).
      now apply IH.
Qed.

(** C6: with three or more channels selected the callback puts the selected
    channels' resampled values in long form, one row per timestamp and
    channel, runs the repeated-measures analysis on it with [Temperature] as
    the dependent variable, [TIMESTAMP] as the subject and [Sensor] as the
    only within-subject factor, and returns the text of the result table,
    which is not empty.  (The callback returns exactly when the analysis
    does; an exception of the analysis propagates.) *)
Theorem repeated_measures_summary
  (L : Library) (selected : list sensor) (g : Globals) :
  str_nonempty L ->
  (2 < length selected)%nat ->
  let d := df_resampled g in
  let long := mkLong "TIMESTAMP" "Sensor" "Temperature" (long_rows d selected) in
  melt "TIMESTAMP" "Sensor" "Temperature" (select_reset_index selected d)
  = Ok long
  /\ length (l_rows long) = (length selected * length d)%nat
  /\ (forall k i s t r,
        nth_error selected k = Some s ->
        nth_error d i = Some (t, r) ->
        nth_error (l_rows long) (k * length d + i)
        = Some (t, sensor_name s, col s r))
  /\ fst (update_errorbars_plot L selected g)
     = match AnovaRM_fit L long "Temperature" "TIMESTAMP" ["Sensor"%string] with
       | Ok a =>
           Ok (mkFigure (map (errorbars_trace L d) selected)
                        (Some errorbars_layout),
               results_str L a)
       | Raise e => Raise e
       end
  /\ (forall fig text,
        fst (update_errorbars_plot L selected g) = Ok (fig, text) ->
        text <> EmptyString).
Proof.
  intros Hstr Hlen d long.
  assert (Hrun : fst (update_errorbars_plot L selected g)
     = match AnovaRM_fit L long "Temperature" "TIMESTAMP" ["Sensor"%string] with
       | Ok a =>
           Ok (mkFigure (map (errorbars_trace L d) selected)
                        (Some errorbars_layout),
               results_str L a)
       | Raise e => Raise e
       end).
  { rewrite update_errorbars_plot_run. cbn [fst].
    destruct selected as [|s0 [|s1 [|s2 l]]]; simpl in Hlen; try lia.
    cbn [summary_text]. fold d. fold long.
    destruct (AnovaRM_fit L long _ _ _); reflexivity. }
  split; [apply melt_selected|].
  split; [apply long_rows_length|].
  split; [intros; now apply long_rows_nth|].
  split; [exact Hrun|].
  intros fig text H. rewrite Hrun in H.
  destruct (AnovaRM_fit L long _ _ _) as [a|e]; [|discriminate].
  injection H as _ <-. apply Hstr.
Qed.

Lemma sample_str_nonempty : str_nonempty sample_library.
Proof. intros r. discriminate. Qed.

Lemma repeated_measures_summary_witness :
  str_nonempty sample_library
  /\ (2 < length [TempC_target_1331; TempC_target_1370; TempC_target_1376])%nat
  /\ length (long_rows (df_resampled trend_globals)
               [TempC_target_1331; TempC_target_1370; TempC_target_1376])
     = (3 * 6)%nat
  /\ forall fig text,
       fst (update_errorbars_plot sample_library
              [TempC_target_1331; TempC_target_1370; TempC_target_1376]
              trend_globals) = Ok (fig, text) ->
       text <> EmptyString.
Proof.
  assert (H : (2 < length [TempC_target_1331; TempC_target_1370;
                           TempC_target_1376])%nat) by (simpl; lia).
  split; [exact sample_str_nonempty|]. split; [exact H|].
  pose proof (repeated_measures_summary sample_library
                [TempC_target_1331; TempC_target_1370; TempC_target_1376]
                trend_globals sample_str_nonempty H) as T.
  cbv zeta in T. split; [apply T|apply T].
Defined.

(** ** Two channels: the paired test *)

Lemma fadd_nan_r (v : float) : fadd v NaN = NaN.
Proof. now destruct v. Qed.

Lemma fsub_nan_r (v : float) : fsub v NaN = NaN.
Proof. now destruct v. Qed.

Lemma fsum_nan (l : list float) : In NaN l -> fsum l = NaN.
Proof.
  induction l as [|v l IH]; intros H; [destruct H|].
  unfold fsum. cbn [fold_right]. destruct H as [->|H]; [reflexivity|].
  fold (fsum l). rewrite (IH H). apply fadd_nan_r.
Qed.

Lemma fmean_nan (l : list float) : In NaN l -> fmean l = NaN.
Proof. intros H. unfold fmean. now rewrite (fsum_nan l H). Qed.

(** A missing value on either side makes the difference at that bucket
    not-a-number. *)
Lemma differences_nan (a b : list float) :
  length a = length b ->
  In NaN a \/ In NaN b ->
  In NaN (map (fun p => fsub (fst p) (snd p)) (combine a b)).
Proof.
  revert b. induction a as [|u a IH]; intros [|v b] Hlen H;
    try discriminate.
  - destruct H as [[]|[]].
  - cbn [combine map fst snd]. injection Hlen as Hlen.
    destruct H as [[->|H]|[->|H]].
    + left. reflexivity.
    + right. apply IH; auto.
    + left. apply fsub_nan_r.
    + right. apply IH; auto.
Qed.

Lemma in_of_cell_nan (l : list cell) : In None l -> In NaN (map of_cell l).
Proof. intros H. now apply (in_map of_cell) in H. Qed.

Lemma ttest_finish_nan (L : Library) (dof : Z) :
  _ttest_finish L dof NaN = (NaN, NaN).
Proof. reflexivity. Qed.

(** With the default policy a not-a-number input reaches both results. *)
Lemma ttest_rel_nan (L : Library) (a b : list float) :
  length a = length b ->
  In NaN a \/ In NaN b ->
  ttest_rel L a b = Ok (NaN, NaN).
Proof.
  intros Hlen H. unfold ttest_rel.
  rewrite Hlen, Nat.eqb_refl. cbn [negb].
  destruct (length b =? 0)%nat; [reflexivity|].
  cbv zeta. rewrite (fmean_nan _ (differences_nan a b Hlen H)).
  reflexivity.
Qed.

Lemma column_length (s : sensor) (d : DataFrame) :
  length (map of_cell (column s d)) = length d.
Proof. unfold column. now rewrite !length_map. Qed.

(** On two columns of one table the test never raises. *)
Lemma paired_result_ok (L : Library) (d : DataFrame) (s0 s1 : sensor) :
  exists t p, paired_result L d s0 s1 = Ok (t, p).
Proof.
  unfold paired_result, ttest_rel. rewrite !column_length, Nat.eqb_refl.
  cbn [negb]. destruct (length d =? 0)%nat; eexists; eexists; reflexivity.
Qed.

(** *** Complete series: the float computation is the rational one *)

Lemma fsum_fin (l : list Q) : fsum (map Fin l) = Fin (Qsum l).
Proof.
  unfold fsum, Qsum. induction l as [|q l IH]; [reflexivity|].
  cbn [map fold_right]. now rewrite IH.
Qed.

Lemma flen_fin (l : list Q) : flen (map Fin l) = Fin (Qlen l).
Proof. unfold flen, Qlen. now rewrite length_map. Qed.

Lemma Qlen_nonzero (l : list Q) : l <> [] -> Qzero_b (Qlen l) = false.
Proof.
  intros H. unfold Qzero_b, Qlen. cbn [Qnum inject_Z].
  apply Z.eqb_neq. destruct l; [contradiction|]. simpl. lia.
Qed.

Lemma Qlen_pred_nonzero (l : list Q) :
  (2 <= length l)%nat -> Qzero_b (Qlen l - 1) = false.
Proof.
  intros H. unfold Qzero_b, Qlen, Qminus, Qplus. cbn [Qnum Qden inject_Z Qopp].
  apply Z.eqb_neq. lia.
Qed.

Lemma fmean_fin (l : list Q) : l <> [] -> fmean (map Fin l) = Fin (Qmean l).
Proof.
  intros H. unfold fmean. rewrite fsum_fin, flen_fin. cbn [fdiv].
  now rewrite (Qlen_nonzero l H).
Qed.

Lemma var_fin (l : list Q) :
  (2 <= length l)%nat -> _var (map Fin l) = Fin (Qvar l).
Proof.
  intros H. unfold _var. cbv zeta.
  assert (Hne : l <> []) by (intros ->; simpl in H; lia).
  rewrite (fmean_fin l Hne), flen_fin, !map_map.
  change (map (fun v => fmul (fsub (Fin v) (Fin (Qmean l)))
                             (fsub (Fin v) (Fin (Qmean l)))) l)
    with (map (fun v => Fin ((v - Qmean l) * (v - Qmean l))) l).
  rewrite <- (map_map (fun v => (v - Qmean l) * (v - Qmean l))%Q Fin).
  rewrite fsum_fin. cbn [fsub fneg fadd fdiv].
  change (Qlen l + - (1))%Q with (Qlen l - 1)%Q.
  now rewrite (Qlen_pred_nonzero l H).
Qed.

Lemma of_cell_some (l : list Q) : map of_cell (map Some l) = map Fin l.
Proof. now rewrite map_map. Qed.

Lemma differences_fin (qa qb : list Q) :
  map (fun p => fsub (fst p) (snd p)) (combine (map Fin qa) (map Fin qb))
  = map Fin (differences qa qb).
Proof.
  unfold differences. revert qb.
  induction qa as [|u qa IH]; intros [|v qb]; try reflexivity.
  cbn [map combine fst snd]. now rewrite IH.
Qed.

Lemma differences_length (qa qb : list Q) :
  length qa = length qb -> length (differences qa qb) = length qa.
Proof.
  intros H. unfold differences. rewrite length_map, length_combine. lia.
Qed.

(** The paired test on two complete series of at least two buckets. *)
Lemma ttest_rel_fin (L : Library) (qa qb : list Q) :
  length qa = length qb ->
  (2 <= length qa)%nat ->
  let d := differences qa qb in
  let t := fdiv (Fin (Qmean d)) (fsqrt L (Fin (Qvar d / Qlen qa))) in
  ttest_rel L (map Fin qa) (map Fin qb)
  = Ok (t, fmul (fstdtr L (Z.of_nat (length qa) - 1) (fneg (fabs t))) (Fin 2)).
Proof.
  intros Hlen H2 d t. unfold ttest_rel.
  rewrite !length_map, <- Hlen, Nat.eqb_refl. cbn [negb].
  replace (length qa =? 0)%nat with false
    by (symmetry; apply Nat.eqb_neq; lia).
  cbv zeta. rewrite differences_fin. fold d.
  assert (Hd : length d = length qa) by now apply differences_length.
  rewrite var_fin by lia.
  rewrite fmean_fin by (intros E; rewrite E in Hd; simpl in Hd; lia).
  rewrite flen_fin. cbn [fdiv].
  rewrite Qlen_nonzero by (intros E; rewrite E in H2; simpl in H2; lia).
  reflexivity.
Qed.

(** C1 (as amended): with exactly two channels selected the paired test runs
    on all buckets of the two resampled series, it never aborts, and with no
    missing value (and at least two buckets) it is the paired test over all
    buckets; a missing value on either side is not dropped: it makes both the
    statistic and the p-value not-a-number. *)
Theorem paired_test_propagates_missing
  (L : Library) (g : Globals) (s0 s1 : sensor) :
  let a := column s0 (df_resampled g) in
  let b := column s1 (df_resampled g) in
  exists t p,
    paired_result L (df_resampled g) s0 s1 = Ok (t, p)
    /\ (exists fig,
          fst (update_errorbars_plot L [s0; s1] g)
          = Ok (fig, paired_text s0 s1 t p))
    /\ (In None a \/ In None b -> t = NaN /\ p = NaN)
    /\ (forall qa qb,
          a = map Some qa -> b = map Some qb -> (2 <= length qa)%nat ->
          let d := differences qa qb in
          t = fdiv (Fin (Qmean d)) (fsqrt L (Fin (Qvar d / Qlen qa)))
          /\ p = fmul (fstdtr L (Z.of_nat (length qa) - 1) (fneg (fabs t)))
                      (Fin 2)).
Proof.
  intros a b.
  destruct (paired_result_ok L (df_resampled g) s0 s1) as (t & p & Hr).
  exists t, p. split; [exact Hr|]. split; [|split].
  - rewrite update_errorbars_plot_run. cbn [fst summary_text].
    rewrite Hr. eexists. reflexivity.
  - intros H. unfold paired_result in Hr.
    rewrite ttest_rel_nan in Hr.
    + injection Hr as <- <-. now split.
    + now rewrite !column_length.
    + destruct H as [H|H]; [left|right]; now apply in_of_cell_nan.
  - intros qa qb Ha Hb H2 d.
    assert (Hlen : length qa = length qb).
    { apply (f_equal (@length _)) in Ha, Hb. rewrite length_map in Ha, Hb.
      unfold a, b, column in Ha, Hb. rewrite length_map in Ha, Hb. congruence. }
    unfold paired_result in Hr. fold a b in Hr.
    rewrite Ha, Hb, !of_cell_some in Hr.
    rewrite (ttest_rel_fin L qa qb Hlen H2) in Hr.
    injection Hr as <- <-. now split.
Qed.

Lemma paired_test_propagates_missing_witness :
  exists t p,
    paired_result sample_library (df_resampled gap_globals)
                  TempC_target_1331 TempC_target_1370 = Ok (t, p)
    /\ t = NaN /\ p = NaN.
Proof.
  destruct (paired_test_propagates_missing sample_library gap_globals
              TempC_target_1331 TempC_target_1370)
    as (t & p & Hr & _ & Hnan & _).
  exists t, p. split; [exact Hr|].
  apply Hnan. left. right. left. reflexivity.
Defined.

(** C1 (as stated) fails: the test is not the test on the buckets present in
    both channels.  With one bucket missing in channel 1331 the callback's
    results are not-a-number, while the three complete buckets alone give a
    number. *)
Lemma paired_test_keeps_missing_rows :
  ~ (forall (L : Library) (g : Globals) (s0 s1 : sensor),
        let pairs := complete_pairs (column s0 (df_resampled g))
                                    (column s1 (df_resampled g)) in
        paired_result L (df_resampled g) s0 s1
        = ttest_rel L (map Fin (map fst pairs)) (map Fin (map snd pairs))).
Proof.
  intros H.
  specialize (H sample_library gap_globals TempC_target_1331 TempC_target_1370).
  vm_compute in H. discriminate H.
Qed.

(** What the callback prints on that table. *)
Example gap_text :
  exists fig,
    fst (update_errorbars_plot sample_library
           [TempC_target_1331; TempC_target_1370] gap_globals)
    = Ok (fig,
          ("Paired t-test between TempC_target_1331 and TempC_target_1370:"
             ++ newline ++ "t-stat = nan, p-value = nan")%string).
Proof. eexists. vm_compute. reflexivity. Qed.

(** *** The summary text *)

Lemma append_assoc (a b c : string) :
  ((a ++ b) ++ c = a ++ b ++ c)%string.
Proof. induction a as [|x a IH]; simpl; congruence. Qed.

Lemma append_nil_r (a : string) : (a ++ "" = a)%string.
Proof. induction a as [|x a IH]; simpl; congruence. Qed.

Lemma append_inj_l (pre a b : string) :
  (pre ++ a = pre ++ b)%string -> a = b.
Proof. induction pre as [|x pre IH]; simpl; intros H; [exact H|]. injection H. exact IH. Qed.

Lemma contains_head (sub post : string) : contains sub (sub ++ post).
Proof. exists EmptyString, post. reflexivity. Qed.

Lemma contains_app_r (sub pre s : string) :
  contains sub s -> contains sub (pre ++ s).
Proof.
  intros (a & b & ->). exists (pre ++ a)%string, b. now rewrite append_assoc.
Qed.

Lemma contains_head2 (u v post : string) :
  contains (u ++ v) (u ++ v ++ post).
Proof. exists EmptyString, post. simpl. now rewrite append_assoc. Qed.

Lemma paired_text_contains (s0 s1 : sensor) (t p : float) :
  contains (sensor_name s0) (paired_text s0 s1 t p)
  /\ contains (sensor_name s1) (paired_text s0 s1 t p)
  /\ contains ("t-stat = " ++ format_4f t) (paired_text s0 s1 t p)
  /\ contains ("p-value = " ++ format_4f p) (paired_text s0 s1 t p).
Proof.
  unfold paired_text. repeat split.
  - apply contains_app_r, contains_head.
  - do 3 apply contains_app_r. apply contains_head.
  - do 6 apply contains_app_r. apply contains_head2.
  - do 8 apply contains_app_r.
    change (", p-value = " ++ format_4f p)%string
      with (", " ++ "p-value = " ++ format_4f p)%string.
    apply contains_app_r.
    exists EmptyString, EmptyString. simpl. now rewrite append_nil_r.
Qed.

Lemma is_digit_digit (r : Z) : 0 <= r < 10 -> is_digit (digit r) = true.
Proof.
  intros H.
  assert (E : r = 0 \/ r = 1 \/ r = 2 \/ r = 3 \/ r = 4 \/ r = 5 \/ r = 6
              \/ r = 7 \/ r = 8 \/ r = 9) by lia.
  repeat (destruct E as [->|E]; [reflexivity|]). now subst.
Qed.

Lemma frac4_digits (m : Z) :
  String.length (frac4 m) = 4%nat /\ all_digits (frac4 m) = true.
Proof.
  split; [reflexivity|]. unfold frac4. cbn [all_digits].
  rewrite !is_digit_digit by (apply Z.mod_pos_bound; lia). reflexivity.
Qed.

(** A finite number is printed with four digits after the point. *)
Lemma format_4f_four_decimals (q : Q) : four_decimals (format_4f (Fin q)).
Proof.
  unfold format_4f. cbv zeta.
  set (m := round_half_even (Qabs q * inject_Z 10000)).
  exists ((if Qneg_b q then "-" else "") ++ decimal (m / 10000))%string,
         (frac4 (m mod 10000)).
  split; [now rewrite append_assoc|apply frac4_digits].
Qed.

Lemma uint_head (u : Decimal.uint) :
  exists c tl, NilZero.string_of_uint u = String c tl /\ c <> "n"%char.
Proof.
  destruct u; simpl; eexists; eexists; (split; [reflexivity|discriminate]).
Qed.

(** A finite number is never printed as [nan]. *)
Lemma format_4f_fin_head (q : Q) (rest : string) :
  exists c tl, (format_4f (Fin q) ++ rest)%string = String c tl
               /\ c <> "n"%char.
Proof.
  unfold format_4f. cbv zeta. destruct (Qneg_b q).
  - simpl. eexists; eexists; (split; [reflexivity|discriminate]).
  - cbn [append]. unfold decimal.
    destruct (uint_head (N.to_uint (Z.to_N
               (round_half_even (Qabs q * inject_Z 10000) / 10000))))
      as (c & tl & -> & Hc).
    simpl. eexists; eexists; (split; [reflexivity|exact Hc]).
Qed.

(** *** The range of the p-value *)

Lemma pvalue_range (L : Library) (dof : Z) (t : float) :
  stdtr_in_range L ->
  match fmul (fstdtr L dof (fneg (fabs t))) (Fin 2) with
  | NaN => t = NaN
  | Inf _ => False
  | Fin q => (0 <= q <= 1)%Q /\ t <> NaN
  end.
Proof.
  intros Hr. destruct t as [|s|x]; cbn [fabs fneg fstdtr fmul negb].
  - reflexivity.
  - split; [split; discriminate|discriminate].
  - assert (Hx : (- Qabs x <= 0)%Q) by (pose proof (Qabs_nonneg x); lra).
    specialize (Hr dof _ Hx). split; [lra|discriminate].
Qed.

Lemma Qsquare_nonneg (v : Q) : (0 <= v * v)%Q.
Proof. unfold Qle. simpl. rewrite Z.mul_1_r. apply Z.square_nonneg. Qed.

Lemma Qlen_pos (l : list Q) : l <> [] -> (0 < Qlen l)%Q.
Proof.
  intros H. unfold Qlen, Qlt. simpl. destruct l; [contradiction|]. simpl. lia.
Qed.

(** C4 (as amended): with exactly two channels selected the callback
    returns a summary text that contains both channel names and the statistic
    and the two-sided p-value of the paired test on the two resampled
    columns, each in the [.4f] format.  A value that is a number is printed
    with four decimals; the p-value is not-a-number or a number in [[0,1]].
    With a missing bucket in either channel both are printed as [nan]. *)
Theorem paired_summary_text (L : Library) (g : Globals) (s0 s1 : sensor) :
  stdtr_in_range L ->
  exists fig t p,
    paired_result L (df_resampled g) s0 s1 = Ok (t, p)
    /\ fst (update_errorbars_plot L [s0; s1] g)
       = Ok (fig, paired_text s0 s1 t p)
    /\ contains (sensor_name s0) (paired_text s0 s1 t p)
    /\ contains (sensor_name s1) (paired_text s0 s1 t p)
    /\ contains ("t-stat = " ++ format_4f t) (paired_text s0 s1 t p)
    /\ contains ("p-value = " ++ format_4f p) (paired_text s0 s1 t p)
    /\ (forall q, t = Fin q -> four_decimals (format_4f t))
    /\ (forall q, p = Fin q -> four_decimals (format_4f p) /\ (0 <= q <= 1)%Q)
    /\ (p = NaN \/ exists q, p = Fin q)
    /\ (In None (column s0 (df_resampled g))
        \/ In None (column s1 (df_resampled g)) ->
        format_4f t = "nan"%string /\ format_4f p = "nan"%string).
Proof.
  intros Hrange.
  destruct (paired_result_ok L (df_resampled g) s0 s1) as (t & p & Hr).
  assert (Hp : match p with
               | NaN => t = NaN
               | Inf _ => False
               | Fin q => (0 <= q <= 1)%Q /\ t <> NaN
               end).
  { unfold paired_result, ttest_rel in Hr.
    rewrite !column_length, Nat.eqb_refl in Hr. cbn [negb] in Hr.
    destruct (length (df_resampled g) =? 0)%nat.
    - injection Hr as <- <-. reflexivity.
    - cbv zeta in Hr. unfold _ttest_finish in Hr. injection Hr as <- <-.
      now apply pvalue_range. }
  exists (mkFigure (map (errorbars_trace L (df_resampled g)) [s0; s1])
                   (Some errorbars_layout)), t, p.
  split; [exact Hr|]. split.
  { rewrite update_errorbars_plot_run. cbn [fst summary_text]. now rewrite Hr. }
  destruct (paired_text_contains s0 s1 t p) as (C0 & C1 & Ct & Cp).
  do 4 (split; [assumption|]).
  split; [intros q ->; apply format_4f_four_decimals|].
  split.
  { intros q ->. split; [apply format_4f_four_decimals|apply Hp]. }
  split.
  { destruct p as [|s|q]; [now left|destruct Hp|right; now exists q]. }
  intros H. unfold paired_result in Hr. rewrite ttest_rel_nan in Hr.
  - injection Hr as <- <-. now split.
  - now rewrite !column_length.
  - destruct H as [H|H]; [left|right]; now apply in_of_cell_nan.
Qed.

Lemma sample_stdtr_in_range : stdtr_in_range sample_library.
Proof.
  intros dof t _. cbn [stdtr sample_library]. unfold sample_stdtr.
  pose proof (Qsquare_nonneg t) as Ht.
  assert (Hd : (0 < 2 + 2 * (t * t))%Q) by lra.
  split.
  - apply Qle_shift_div_l; [exact Hd|lra].
  - apply Qle_shift_div_r; [exact Hd|lra].
Qed.

Lemma paired_summary_text_witness :
  stdtr_in_range sample_library
  /\ exists fig t p,
       paired_result sample_library (df_resampled trend_globals)
                     TempC_target_1331 TempC_target_1370 = Ok (t, p)
       /\ fst (update_errorbars_plot sample_library
                 [TempC_target_1331; TempC_target_1370] trend_globals)
          = Ok (fig, paired_text TempC_target_1331 TempC_target_1370 t p)
       /\ (forall q, p = Fin q ->
             four_decimals (format_4f p) /\ (0 <= q <= 1)%Q).
Proof.
  split; [exact sample_stdtr_in_range|].
  destruct (paired_summary_text sample_library trend_globals
              TempC_target_1331 TempC_target_1370 sample_stdtr_in_range)
    as (fig & t & p & Hr & H & _ & _ & _ & _ & _ & Hp & _).
  exists fig, t, p. split; [exact Hr|]. split; [exact H|exact Hp].
Defined.

(** The text printed on the six-bucket trend table (the p-value shown is the
    one the sample library's stand-in distribution function gives). *)
Example trend_text :
  exists fig,
    fst (update_errorbars_plot sample_library
           [TempC_target_1331; TempC_target_1370] trend_globals)
    = Ok (fig,
          ("Paired t-test between TempC_target_1331 and TempC_target_1370:"
             ++ newline ++ "t-stat = 3.2733, p-value = 0.0854")%string).
Proof. eexists. vm_compute. reflexivity. Qed.

(** C4 (as stated) fails: on a table with a missing bucket the text does not
    show a statistic and a p-value in [[0,1]] with four decimals; both are
    printed as [nan]. *)
Lemma paired_text_prints_nan :
  ~ (forall (L : Library) (g : Globals) (s0 s1 : sensor),
        stdtr_in_range L ->
        exists fig (t p : Q),
          fst (update_errorbars_plot L [s0; s1] g)
          = Ok (fig, paired_text s0 s1 (Fin t) (Fin p))
          /\ (0 <= p <= 1)%Q).
Proof.
  intros H.
  destruct (H sample_library gap_globals TempC_target_1331 TempC_target_1370
              sample_stdtr_in_range)
    as (fig & t & p & E & _).
  assert (E' : fst (update_errorbars_plot sample_library
                      [TempC_target_1331; TempC_target_1370] gap_globals)
               = Ok (mkFigure (map (errorbars_trace sample_library
                                      (df_resampled gap_globals))
                                   [TempC_target_1331; TempC_target_1370])
                              (Some errorbars_layout),
                     paired_text TempC_target_1331 TempC_target_1370 NaN NaN))
    by (vm_compute; reflexivity).
  rewrite E' in E.
  pose proof (f_equal (fun r => match r with
                                | Ok (_, text) => text
                                | Raise e => e
                                end) E) as T.
  cbv beta iota in T. clear E E'.
  unfold paired_text in T.
  do 7 apply append_inj_l in T.
  destruct (format_4f_fin_head t (", p-value = " ++ format_4f (Fin p)))
    as (c & tl & Ec & Hc).
  rewrite Ec in T. cbn [format_4f append] in T. injection T as T _.
  apply Hc. now rewrite <- T.
Qed.

(** * Further properties of the loader *)

(** ** The shape of the resampled index *)

Lemma progression_sorted (t : Z) (a n : nat) :
  StronglySorted Z.lt (map (fun k => t + 5 * Z.of_nat k) (seq a n)).
Proof.
  revert a. induction n as [|n IH]; intros a; cbn [seq map]; constructor.
  - apply IH.
  - apply Forall_forall. intros u Hu.
    apply in_map_iff in Hu as (k & <- & Hk). apply in_seq in Hk. lia.
Qed.

Lemma fold_min_mem (t : Z) (ts : list Z) :
  In (fold_right Z.min t ts) (t :: ts).
Proof.
  induction ts as [|u ts IH]; cbn [fold_right]; [now left|].
  destruct (Z.min_spec u (fold_right Z.min t ts)) as [[_ ->]|[_ ->]].
  - right. now left.
  - destruct IH as [IH|IH]; [now left|right; now right].
Qed.

Lemma fold_max_mem (t : Z) (ts : list Z) :
  In (fold_right Z.max t ts) (t :: ts).
Proof.
  induction ts as [|u ts IH]; cbn [fold_right]; [now left|].
  destruct (Z.max_spec u (fold_right Z.max t ts)) as [[_ ->]|[_ ->]].
  - destruct IH as [IH|IH]; [now left|right; now right].
  - right. now left.
Qed.

Lemma resample_rows (d : DataFrame) :
  resample_5T_mean d
  = map (fun b => (b, bucket_mean d b)) (index (resample_5T_mean d)).
Proof.
  unfold resample_5T_mean. destruct (index d) as [|t ts]; [reflexivity|].
  cbv zeta. f_equal. unfold index. rewrite map_map. simpl.
  now rewrite map_id.
Qed.

(** X1: whatever the order and repetition of the source timestamps, the
    labels of the resampled table are strictly increasing multiples of five
    minutes, each lies between the buckets of two source rows, and the bucket
    of every source row is among them. *)
Theorem resampled_index_shape (d : DataFrame) :
  StronglySorted Z.lt (index (resample_5T_mean d))
  /\ (forall b, In b (index (resample_5T_mean d)) ->
        b mod 5 = 0
        /\ exists t1 t2, In t1 (index d) /\ In t2 (index d)
                         /\ floor_5T t1 <= b <= floor_5T t2)
  /\ (forall t, In t (index d) -> In (floor_5T t) (index (resample_5T_mean d))).
Proof.
  split; [|split].
  - destruct (resample_on_grid d) as (t & _ & ->). apply progression_sorted.
  - intros b Hb. destruct (index d) as [|t ts] eqn:E.
    + unfold resample_5T_mean in Hb. rewrite E in Hb. destruct Hb.
    + rewrite (resample_index d t ts E) in Hb. unfold bins in Hb.
      apply in_map_iff in Hb as (k & <- & Hk). apply in_seq in Hk.
      pose proof (fold_min_mem t ts) as Hmin.
      pose proof (fold_max_mem t ts) as Hmax.
      set (lo := fold_right Z.min t ts) in *.
      set (hi := fold_right Z.max t ts) in *.
      split.
      * rewrite (Z.mul_comm 5), Z.mod_add by lia. apply floor_5T_mod.
      * exists lo, hi. split; [exact Hmin|]. split; [exact Hmax|].
        assert (Hle : lo <= hi) by (unfold hi; now apply fold_max_in).
        assert (Hd : lo / 5 <= hi / 5) by (apply Z.div_le_mono; lia).
        unfold floor_5T in *.
        replace (5 * (hi / 5) - 5 * (lo / 5)) with ((hi / 5 - lo / 5) * 5)
          in Hk by lia.
        rewrite Z.div_mul in Hk by lia. lia.
  - apply resample_covers.
Qed.

(** ** Buckets without a reading, buckets with one reading *)

Lemma mean_none (l : list cell) : present l = [] -> mean l = None.
Proof. unfold mean. now intros ->. Qed.

Lemma filter_none {A} (p : A -> bool) (l : list A) :
  (forall a, In a l -> p a = false) -> filter p l = [].
Proof.
  induction l as [|a l IH]; intros H; [reflexivity|].
  cbn [filter]. rewrite (H a (or_introl eq_refl)).
  apply IH. intros b Hb. apply H. now right.
Qed.

(** X2: a bucket of the resampled table that no source row falls in has a
    missing value for every channel. *)
Theorem empty_bucket_is_missing (d : DataFrame) (b : Z) (r : Temps) :
  In (b, r) (resample_5T_mean d) ->
  (forall t, In t (index d) -> in_bucket b t = false) ->
  r = mkTemps None None None.
Proof.
  intros Hin Hno. rewrite (resample_row d b r Hin). unfold bucket_mean.
  assert (E : bucket_rows d b = []).
  { unfold bucket_rows. apply filter_none. intros [t x] Hx.
    apply Hno. now apply (in_map fst) in Hx. }
  now rewrite E.
Qed.

Lemma empty_bucket_is_missing_witness :
  In (5, mkTemps None None None)
     (resample_5T_mean (replace sentinel (set_index scattered_rows)))
  /\ (forall t, In t (index (replace sentinel (set_index scattered_rows))) ->
                in_bucket 5 t = false)
  /\ mkTemps None None None = mkTemps None None None.
Proof.
  assert (H1 : In (5, mkTemps None None None)
                  (resample_5T_mean
                     (replace sentinel (set_index scattered_rows))))
    by (vm_compute; right; left; reflexivity).
  assert (H2 : forall t,
             In t (index (replace sentinel (set_index scattered_rows))) ->
             in_bucket 5 t = false).
  { intros t Ht. vm_compute in Ht.
    destruct Ht as [<-|[<-|[<-|[<-|[]]]]]; reflexivity. }
  split; [exact H1|]. split; [exact H2|].
  exact (empty_bucket_is_missing _ 5 _ H1 H2).
Defined.

Lemma in_bucket_floor (t u : Z) :
  in_bucket (floor_5T t) u = true <-> floor_5T u = floor_5T t.
Proof.
  unfold in_bucket, floor_5T. rewrite andb_true_iff, Z.leb_le, Z.ltb_lt.
  split; intros H; Z.div_mod_to_equations; lia.
Qed.

Lemma filter_unique {A} (f : A -> Z) (p : A -> bool) (l : list A) (a : A) :
  NoDup (map f l) -> In a l ->
  (forall y, p y = true <-> f y = f a) ->
  filter p l = [a].
Proof.
  intros Hnd Hin Hp. induction l as [|y l IH]; [destruct Hin|].
  cbn [map] in Hnd. inversion Hnd as [|? ? Hy Hnd']; subst.
  cbn [filter]. destruct Hin as [->|Hin].
  - rewrite (proj2 (Hp a) eq_refl). f_equal.
    apply filter_none. intros z Hz.
    destruct (p z) eqn:E; [|reflexivity].
    apply Hp in E. exfalso. apply Hy. rewrite <- E. now apply in_map.
  - destruct (p y) eqn:E.
    + apply Hp in E. exfalso. apply Hy. rewrite E. now apply in_map.
    + now apply IH.
Qed.

(** X3: when no two source rows fall in the same bucket, every row is kept
    as it is under the label of its bucket. *)
Theorem lone_readings_are_kept (d : DataFrame) (t : Z) (r : Temps) :
  NoDup (map floor_5T (index d)) ->
  In (t, r) d ->
  In (floor_5T t, r) (resample_5T_mean d).
Proof.
  intros Hnd Hin.
  assert (Hb : In (floor_5T t) (index (resample_5T_mean d)))
    by (apply resample_covers; now apply (in_map fst) in Hin).
  rewrite resample_rows. apply in_map_iff. exists (floor_5T t).
  split; [|exact Hb]. f_equal.
  unfold bucket_mean, bucket_rows.
  rewrite (filter_unique (fun x => floor_5T (fst x)) _ d (t, r)).
  - unfold column. cbn [map snd]. rewrite !mean_single. now destruct r.
  - unfold index in Hnd. now rewrite map_map in Hnd.
  - exact Hin.
  - intros y. apply in_bucket_floor.
Qed.

Lemma lone_readings_are_kept_witness :
  NoDup (map floor_5T (index (df_resampled offset_globals)))
  /\ In (10, mkTemps (Some (21 # 1)) (Some (22 # 1)) None)
        (df_resampled offset_globals)
  /\ In (floor_5T 10, mkTemps (Some (21 # 1)) (Some (22 # 1)) None)
        (resample_5T_mean (df_resampled offset_globals)).
Proof.
  assert (H1 : NoDup (map floor_5T (index (df_resampled offset_globals)))).
  { vm_compute. repeat (constructor; [cbn [In]; lia|]). constructor. }
  assert (H2 : In (10, mkTemps (Some (21 # 1)) (Some (22 # 1)) None)
                  (df_resampled offset_globals))
    by (right; right; left; reflexivity).
  split; [exact H1|]. split; [exact H2|].
  exact (lone_readings_are_kept _ 10 _ H1 H2).
Defined.

(** ** Bounds on a bucket's value *)

Lemma Qlen_cons (v : Q) (l : list Q) : (Qlen (v :: l) == Qlen l + 1)%Q.
Proof.
  unfold Qlen, Qeq, Qplus. cbn [length Qnum Qden inject_Z]. lia.
Qed.

Lemma Qsum_lower (a : Q) (l : list Q) :
  (forall v, In v l -> a <= v)%Q -> (a * Qlen l <= Qsum l)%Q.
Proof.
  induction l as [|v l IH]; intros H.
  - change (Qlen []) with 0%Q. change (Qsum []) with 0%Q. lra.
  - rewrite Qlen_cons. unfold Qsum in *. cbn [fold_right].
    assert (a <= v)%Q by (apply H; now left).
    assert (a * Qlen l <= fold_right Qplus 0 l)%Q
      by (apply IH; intros u Hu; apply H; now right).
    lra.
Qed.

Lemma list_least (l : list Q) :
  l <> [] -> exists lo, In lo l /\ forall v, In v l -> (lo <= v)%Q.
Proof.
  induction l as [|u l IH]; intros Hne; [contradiction|].
  destruct l as [|w l].
  - exists u. split; [now left|]. intros v [<-|[]]. lra.
  - destruct IH as (lo & Hlo & Hmin); [discriminate|].
    destruct (Qlt_le_dec u lo) as [Hlt|Hle].
    + exists u. split; [now left|]. intros v [<-|Hv]; [lra|].
      specialize (Hmin v Hv). lra.
    + exists lo. split; [now right|]. intros v [<-|Hv]; [exact Hle|].
      now apply Hmin.
Qed.

Lemma valid_readings_in (s : sensor) (rows : list (Reading Z)) (b : Z) (q : Q) :
  In q (valid_readings s rows b) ->
  exists row, In row rows /\ in_bucket b (TIMESTAMP row) = true
              /\ col s (temps row) = Some q /\ Qeq_bool q sentinel = false.
Proof.
  induction rows as [|r rows IH]; cbn [valid_readings]; [intros []|].
  intros H.
  assert (Hrest : In q (valid_readings s rows b) ->
                  exists row, In row (r :: rows)
                              /\ in_bucket b (TIMESTAMP row) = true
                              /\ col s (temps row) = Some q
                              /\ Qeq_bool q sentinel = false).
  { intros H'. destruct (IH H') as (row & Hr & Hrow).
    exists row. split; [now right|exact Hrow]. }
  destruct (in_bucket b (TIMESTAMP r)) eqn:Eb; [|now apply Hrest].
  destruct (col s (temps r)) as [v|] eqn:Ec; [|now apply Hrest].
  destruct (Qeq_bool v sentinel) eqn:Es; [now apply Hrest|].
  destruct H as [<-|H]; [|now apply Hrest].
  exists r. split; [now left|]. now repeat split.
Qed.

(** X5: when every reading of the sheet is either the sentinel or greater
    than it, as temperatures are, no value of the resampled table equals the
    sentinel. *)
Theorem sentinel_absent_above_sentinel
  (rows : list (Reading Z)) (b : Z) (r : Temps) (s : sensor) :
  (forall row c q, In row rows -> col c (temps row) = Some q ->
                   (q == sentinel \/ sentinel < q)%Q) ->
  In (b, r) (resample_5T_mean (replace sentinel (set_index rows))) ->
  is_sentinel (col s r) = false.
Proof.
  intros Hphys Hin. unfold is_sentinel.
  destruct (col s r) as [v|] eqn:Ev; [|reflexivity].
  rewrite (resample_row _ _ _ Hin), col_bucket_mean in Ev.
  unfold mean in Ev. rewrite present_bucket_valid in Ev.
  destruct (valid_readings s rows b) as [|u l] eqn:E; [discriminate|].
  injection Ev as <-.
  destruct (list_least (u :: l)) as (lo & Hlo & Hmin); [discriminate|].
  rewrite <- E in Hlo.
  destruct (valid_readings_in s rows b lo Hlo) as (row & Hrow & _ & Hc & Hs).
  assert (Hgt : (sentinel < lo)%Q).
  { destruct (Hphys row s lo Hrow Hc) as [Heq|Hlt]; [|exact Hlt].
    apply Qeq_bool_iff in Heq. congruence. }
  assert (Hm : (lo <= Qmean (u :: l))%Q).
  { unfold Qmean. apply Qle_shift_div_l.
    - apply Qlen_pos. discriminate.
    - now apply Qsum_lower. }
  destruct (Qeq_bool (Qmean (u :: l)) sentinel) eqn:Eq; [|reflexivity].
  apply Qeq_bool_iff in Eq. lra.
Qed.

Lemma sentinel_absent_above_sentinel_witness :
  (forall row c q, In row scattered_rows -> col c (temps row) = Some q ->
                   (q == sentinel \/ sentinel < q)%Q)
  /\ In (10, mkTemps None (Some (21 # 1)) None)
        (resample_5T_mean (replace sentinel (set_index scattered_rows)))
  /\ is_sentinel (col TempC_target_1331 (mkTemps None (Some (21 # 1)) None))
     = false.
Proof.
  assert (H1 : forall row c q, In row scattered_rows ->
                 col c (temps row) = Some q ->
                 (q == sentinel \/ sentinel < q)%Q).
  { intros row c q Hrow Hq.
    destruct Hrow as [<-|[<-|[<-|[<-|[]]]]]; destruct c; cbn in Hq;
      try discriminate; injection Hq as <-;
      first [left; reflexivity | right; reflexivity]. }
  assert (H2 : In (10, mkTemps None (Some (21 # 1)) None)
                  (resample_5T_mean
                     (replace sentinel (set_index scattered_rows))))
    by (vm_compute; right; right; left; reflexivity).
  split; [exact H1|]. split; [exact H2|].
  exact (sentinel_absent_above_sentinel scattered_rows 10 _
           TempC_target_1331 H1 H2).
Defined.

(** ** Channels do not influence each other *)

Lemma filter_map_swap {A B} (f : A -> B) (p : B -> bool) (l : list A) :
  filter p (map f l) = map f (filter (fun a => p (f a)) l).
Proof.
  induction l as [|a l IH]; [reflexivity|].
  cbn [map filter]. destruct (p (f a)); cbn [map]; now rewrite IH.
Qed.

Lemma column_bucket_rows (s : sensor) (d : DataFrame) (b : Z) :
  column s (bucket_rows d b)
  = map snd (filter (fun p => in_bucket b (fst p))
                    (map (fun r => (fst r, col s (snd r))) d)).
Proof.
  unfold column, bucket_rows. rewrite filter_map_swap, map_map. reflexivity.
Qed.

(** X6: the resampled series of a channel depends on the timestamps and on
    that channel's column only: two tables that agree on both have the same
    resampled series for the channel, whatever their other columns hold. *)
Theorem resampled_channel_independent (d d' : DataFrame) (s : sensor) :
  index d = index d' ->
  column s d = column s d' ->
  index (resample_5T_mean d) = index (resample_5T_mean d')
  /\ column s (resample_5T_mean d) = column s (resample_5T_mean d').
Proof.
  intros Hi Hc.
  assert (Hp : map (fun r => (fst r, col s (snd r))) d
               = map (fun r => (fst r, col s (snd r))) d').
  { rewrite <- (combine_map_same fst (fun r => col s (snd r)) d).
    rewrite <- (combine_map_same fst (fun r => col s (snd r)) d').
    fold (index d) (index d') (column s d) (column s d'). congruence. }
  assert (Hidx : index (resample_5T_mean d) = index (resample_5T_mean d')).
  { unfold resample_5T_mean. rewrite <- Hi.
    destruct (index d); [reflexivity|]. cbv zeta.
    unfold index. rewrite !map_map. reflexivity. }
  split; [exact Hidx|].
  rewrite (resample_rows d), (resample_rows d'), <- Hidx.
  unfold column. rewrite !map_map. cbn [snd].
  apply map_ext. intros b.
  now rewrite !col_bucket_mean, !column_bucket_rows, Hp.
Qed.

Lemma resampled_channel_independent_witness :
  index (df_resampled trend_globals)
  = index (map (fun r => (fst r, mkTemps (c1331 (snd r)) None None))
               (df_resampled trend_globals))
  /\ column TempC_target_1331 (df_resampled trend_globals)
     = column TempC_target_1331
         (map (fun r => (fst r, mkTemps (c1331 (snd r)) None None))
              (df_resampled trend_globals))
  /\ column TempC_target_1331 (resample_5T_mean (df_resampled trend_globals))
     = column TempC_target_1331
         (resample_5T_mean
            (map (fun r => (fst r, mkTemps (c1331 (snd r)) None None))
                 (df_resampled trend_globals))).
Proof.
  split; [reflexivity|]. split; [reflexivity|].
  exact (proj2 (resampled_channel_independent
                  (df_resampled trend_globals)
                  (map (fun r => (fst r, mkTemps (c1331 (snd r)) None None))
                       (df_resampled trend_globals))
                  TempC_target_1331 eq_refl eq_refl)).
Defined.

(** * Further properties of the callbacks *)

(** ** Where an error bar is drawn *)

Lemma present_short (l : list cell) :
  In None l -> (length (present l) < length l)%nat.
Proof.
  induction l as [|[q|] l IH]; cbn [present length In].
  - intros [].
  - intros [H|H]; [discriminate|]. specialize (IH H). lia.
  - intros _. pose proof (present_length_le l). lia.
Qed.

(** X9: the error array has a value at bucket position [i] exactly when
    [i >= 4] and the five buckets [i-4 .. i] of the series are all present;
    the value is then the standard deviation of those five. *)
Theorem rolling_std_defined_iff (L : Library) (xs : list cell) (i : nat) (v : Q) :
  nth_error (rolling_std L 5 xs) i = Some (Some v)
  <-> ((4 <= i)%nat
       /\ exists win, firstn 5 (skipn (i - 4) xs) = map Some win
                      /\ length win = 5%nat
                      /\ v = np_sqrt L (Qvar win)).
Proof.
  split.
  - intros H.
    assert (Hi : (i < length xs)%nat).
    { rewrite <- (rolling_std_length L 5 xs). apply nth_error_Some. congruence. }
    now apply (proj2 (rolling_std_window L xs i Hi)).
  - intros (H4 & win & Hwin & Hlen & ->).
    assert (Hi : (i < length xs)%nat).
    { apply (f_equal (@length _)) in Hwin.
      rewrite length_firstn, length_skipn, length_map in Hwin. lia. }
    rewrite (rolling_std_nth L 5 xs i Hi). cbv zeta.
    rewrite (window_trailing i xs H4), Hwin, present_some, Hlen.
    reflexivity.
Qed.

(** X10: a missing bucket at position [j] removes the error bar of that
    bucket and of the four buckets after it. *)
Theorem missing_bucket_blanks_five (L : Library) (xs : list cell) (j i : nat) :
  nth_error xs j = Some None ->
  (j <= i <= j + 4)%nat ->
  (i < length xs)%nat ->
  nth_error (rolling_std L 5 xs) i = Some None.
Proof.
  intros Hj Hji Hi. rewrite (rolling_std_nth L 5 xs i Hi). cbv zeta.
  assert (Hin : In None (window 5 i xs)).
  { apply (nth_error_In _ (j - (i + 1 - 5))). unfold window.
    rewrite nth_error_skipn, nth_error_firstn.
    replace (i + 1 - 5 + (j - (i + 1 - 5)))%nat with j by lia.
    replace (j <? i + 1)%nat with true by (symmetry; apply Nat.ltb_lt; lia).
    exact Hj. }
  pose proof (present_short _ Hin) as Hs.
  pose proof (window_length 5 i xs) as Hw.
  replace (length (present (window 5 i xs)) <? 5)%nat with true
    by (symmetry; apply Nat.ltb_lt; lia).
  reflexivity.
Qed.

Lemma missing_bucket_blanks_five_witness :
  nth_error (column TempC_target_1376 (df_resampled trend_globals)) 1
  = Some None
  /\ (1 <= 5 <= 1 + 4)%nat
  /\ (5 < length (column TempC_target_1376 (df_resampled trend_globals)))%nat
  /\ nth_error (rolling_std sample_library 5
                  (column TempC_target_1376 (df_resampled trend_globals))) 5
     = Some None.
Proof.
  assert (H1 : nth_error (column TempC_target_1376
                            (df_resampled trend_globals)) 1 = Some None)
    by reflexivity.
  assert (H2 : (1 <= 5 <= 1 + 4)%nat) by lia.
  assert (H3 : (5 < length (column TempC_target_1376
                              (df_resampled trend_globals)))%nat)
    by (simpl; lia).
  split; [exact H1|]. split; [exact H2|]. split; [exact H3|].
  exact (missing_bucket_blanks_five sample_library _ 1 5 H1 H2 H3).
Defined.

(** ** The two charts *)

(** X11: whenever the second tab returns a chart, it shows the series of the
    first tab for the same selection, in the same order, with error bars
    added; and every series has one x, one y and one error entry per bucket
    of the resampled table. *)
Theorem errorbars_chart_extends_temp_chart
  (L : Library) (selected : list sensor) (g : Globals)
  (fig : Figure) (text : string) :
  fst (update_errorbars_plot L selected g) = Ok (fig, text) ->
  fst (update_temp_plot selected g)
  = Ok (mkFigure (map strip_error (data fig)) (Some temp_layout))
  /\ Forall (aligned (length (df_resampled g))) (data fig).
Proof.
  intros H. apply errorbars_figure in H. rewrite H. split.
  - unfold update_temp_plot. unfold bind at 1. rewrite temp_loop.
    cbn [data layout new_figure app]. rewrite map_map. reflexivity.
  - apply Forall_forall. intros tr Htr.
    apply in_map_iff in Htr as (s & <- & _).
    unfold aligned, errorbars_trace. cbn [x y error_y ey_array].
    rewrite rolling_std_length. unfold index, column.
    now rewrite !length_map.
Qed.

Lemma errorbars_chart_extends_temp_chart_witness :
  exists fig text,
    fst (update_errorbars_plot sample_library
           [TempC_target_1376; TempC_target_1331] trend_globals)
    = Ok (fig, text)
    /\ fst (update_temp_plot [TempC_target_1376; TempC_target_1331]
                             trend_globals)
       = Ok (mkFigure (map strip_error (data fig)) (Some temp_layout))
    /\ Forall (aligned (length (df_resampled trend_globals))) (data fig).
Proof.
  eexists. eexists. split; [vm_compute; reflexivity|].
  eapply (errorbars_chart_extends_temp_chart sample_library
            [TempC_target_1376; TempC_target_1331] trend_globals).
  vm_compute. reflexivity.
Defined.

(** ** When the second tab raises *)

(** X12: the second callback raises only with three or more channels
    selected, and then exactly the exception of the repeated-measures
    analysis on the long-form table; with two channels or fewer it always
    returns. *)
Theorem errorbars_raises_only_from_analysis
  (L : Library) (selected : list sensor) (g : Globals) (e : string) :
  fst (update_errorbars_plot L selected g) = Raise e
  <-> ((2 < length selected)%nat
       /\ AnovaRM_fit L
            (mkLong "TIMESTAMP" "Sensor" "Temperature"
                    (long_rows (df_resampled g) selected))
            "Temperature" "TIMESTAMP" ["Sensor"%string]
          = Raise e).
Proof.
  rewrite update_errorbars_plot_run. cbn [fst].
  destruct selected as [|s0 [|s1 [|s2 l]]]; cbn [summary_text length].
  - split; [discriminate|intros [H _]; lia].
  - split; [discriminate|intros [H _]; lia].
  - destruct (paired_result_ok L (df_resampled g) s0 s1) as (t & p & ->).
    split; [discriminate|intros [H _]; lia].
  - destruct (AnovaRM_fit L _ _ _ _) as [a|e'].
    + split; [discriminate|intros [_ H]; discriminate].
    + split.
      * intros H. injection H as ->. split; [lia|reflexivity].
      * intros [_ H]. injection H as ->. reflexivity.
Qed.

(** ** Degenerate paired tests *)

Lemma fdiv_nan_r (v : float) : fdiv v NaN = NaN.
Proof. now destruct v. Qed.

Lemma var_single (v : float) : _var [v] = NaN.
Proof.
  destruct v as [|s|[n d]]; [reflexivity|now destruct s|].
  unfold _var, fmean, fsum, flen. cbn [length fold_right map].
  cbn [fadd fdiv Z.of_nat]. cbn.
  match goal with
  | |- (if Qzero_b ?E then _ else _) = _ =>
      assert (Hz : Qzero_b E = true)
  end.
  { unfold Qzero_b. apply Z.eqb_eq. cbn. rewrite ?Pos2Z.inj_mul. ring. }
  now rewrite Hz.
Qed.

(** The paired test on fewer than two pairs gives not-a-number twice. *)
Lemma ttest_rel_short (L : Library) (a b : list float) :
  length a = length b -> (length a <= 1)%nat ->
  ttest_rel L a b = Ok (NaN, NaN).
Proof.
  intros Hlen H1. unfold ttest_rel. rewrite Hlen, Nat.eqb_refl. cbn [negb].
  destruct a as [|u [|? ?]]; destruct b as [|w [|? ?]];
    try discriminate; cbn [length] in *; try lia.
  - reflexivity.
  - cbn [Nat.eqb combine map fst snd]. cbv zeta.
    rewrite var_single. cbn [fdiv fsqrt]. rewrite fdiv_nan_r. reflexivity.
Qed.

(** X13: with two channels selected and fewer than two buckets in the
    resampled table (an empty sheet, or readings within one bucket), the
    statistic and the p-value are both printed as [nan]. *)
Theorem paired_text_needs_two_buckets
  (L : Library) (g : Globals) (s0 s1 : sensor) :
  (length (df_resampled g) <= 1)%nat ->
  exists fig,
    fst (update_errorbars_plot L [s0; s1] g)
    = Ok (fig, paired_text s0 s1 NaN NaN)
    /\ format_4f NaN = "nan"%string.
Proof.
  intros H. rewrite update_errorbars_plot_run. cbn [fst summary_text].
  unfold paired_result. rewrite ttest_rel_short.
  - eexists. split; reflexivity.
  - now rewrite !column_length.
  - now rewrite column_length.
Qed.

Lemma paired_text_needs_two_buckets_witness :
  (length (df_resampled single_globals) <= 1)%nat
  /\ exists fig,
       fst (update_errorbars_plot sample_library
              [TempC_target_1331; TempC_target_1370] single_globals)
       = Ok (fig, paired_text TempC_target_1331 TempC_target_1370 NaN NaN)
       /\ format_4f NaN = "nan"%string.
Proof.
  assert (H : (length (df_resampled single_globals) <= 1)%nat)
    by (simpl; lia).
  split; [exact H|].
  exact (paired_text_needs_two_buckets sample_library single_globals
           TempC_target_1331 TempC_target_1370 H).
Defined.

(** ** Labels: what the page sends *)

Lemma sensor_of_name_name (s : sensor) : sensor_of_name (sensor_name s) = Some s.
Proof. now destruct s. Qed.

Lemma sensor_of_name_some (key : string) (s : sensor) :
  sensor_of_name key = Some s -> key = sensor_name s.
Proof.
  unfold sensor_of_name.
  destruct (String.eqb key "TempC_target_1331") eqn:E1;
    [apply String.eqb_eq in E1; intros H; now injection H as <-|].
  destruct (String.eqb key "TempC_target_1370") eqn:E2;
    [apply String.eqb_eq in E2; intros H; now injection H as <-|].
  destruct (String.eqb key "TempC_target_1376") eqn:E3;
    [apply String.eqb_eq in E3; intros H; now injection H as <-|].
  discriminate.
Qed.

Lemma decode_selection_names (names : list string) (sel : list sensor) :
  decode_selection names = Some sel -> names = map sensor_name sel.
Proof.
  revert sel. induction names as [|n names IH]; intros sel; cbn [decode_selection].
  - intros H. now injection H as <-.
  - destruct (sensor_of_name n) as [s|] eqn:E; [|discriminate].
    destruct (decode_selection names) as [l|]; [|discriminate].
    intros H. injection H as <-. cbn [map]. f_equal.
    + now apply sensor_of_name_some.
    + now apply IH.
Qed.

Lemma decode_selection_unknown (names : list string) :
  decode_selection names = None
  <-> exists n, In n names /\ sensor_of_name n = None.
Proof.
  induction names as [|n names IH]; cbn [decode_selection].
  - split; [discriminate|intros (n & [] & _)].
  - destruct (sensor_of_name n) as [s|] eqn:E.
    + destruct (decode_selection names) as [l|].
      * split; [discriminate|].
        intros (m & [<-|Hm] & Hnone); [congruence|].
        assert (H : Some l = None) by (apply (proj2 IH); now exists m).
        discriminate H.
      * split; [|reflexivity]. intros _.
        destruct (proj1 IH eq_refl) as (m & Hm & Hnone).
        exists m. split; [now right|exact Hnone].
    + split; [|reflexivity]. intros _. exists n. split; [now left|exact E].
Qed.

Lemma temp_loop_by_name (names : list string) (fig : Figure) (g : Globals) :
  for_each names
    (fun sensor fig =>
       d <- read_df_resampled ;;
       y <- lift (getitem d sensor) ;;
       ret (add_trace fig
              (mkScatter (index d) y "lines+markers" sensor None)))
    fig g
  = match decode_selection names with
    | Some sel =>
        (Ok (mkFigure (data fig ++ map (temp_trace (df_resampled g)) sel)
                      (layout fig)), g)
    | None => (Raise "KeyError", g)
    end.
Proof.
  revert fig. induction names as [|n names IH]; intros fig.
  - cbn [for_each decode_selection map]. unfold ret. rewrite app_nil_r.
    now destruct fig.
  - cbn [for_each decode_selection]. unfold bind at 1. unfold bind at 1.
    unfold read_df_resampled. unfold bind at 1. unfold lift, getitem.
    destruct (sensor_of_name n) as [s|] eqn:E; [|reflexivity].
    unfold ret at 1. rewrite IH.
    destruct (decode_selection names) as [l|]; [|reflexivity].
    cbn [data layout add_trace map]. rewrite <- app_assoc. cbn [app].
    unfold temp_trace at 2. now rewrite (sensor_of_name_some n s E).
Qed.

Lemma update_temp_plot_by_name_run (names : list string) (g : Globals) :
  update_temp_plot_by_name names g
  = match decode_selection names with
    | Some sel => update_temp_plot sel g
    | None => (Raise "KeyError", g)
    end.
Proof.
  unfold update_temp_plot_by_name, update_temp_plot.
  unfold bind at 1. rewrite temp_loop_by_name.
  destruct (decode_selection names) as [sel|]; [|reflexivity].
  unfold bind at 1. now rewrite temp_loop.
Qed.

(** X14: every selection made of option values of the first tab's dropdown
    names columns of the resampled table only: the callback serves it without
    a key error and returns the chart of the channels named, in the order the
    page sent them. *)
Theorem dropdown_selection_is_served (names : list string) (g : Globals) :
  incl names (map snd (dd_options sensor_dropdown)) ->
  exists sel,
    names = map sensor_name sel
    /\ fst (update_temp_plot_by_name names g)
       = Ok (mkFigure (map (temp_trace (df_resampled g)) sel)
                      (Some temp_layout)).
Proof.
  intros Hincl. rewrite update_temp_plot_by_name_run.
  destruct (decode_selection names) as [sel|] eqn:E.
  - exists sel. split; [now apply decode_selection_names|].
    unfold update_temp_plot. unfold bind at 1. rewrite temp_loop. reflexivity.
  - apply decode_selection_unknown in E as (n & Hn & Hnone).
    apply Hincl in Hn. cbn in Hn.
    destruct Hn as [<-|[<-|[<-|[]]]]; discriminate.
Qed.

Lemma dropdown_selection_is_served_witness :
  incl (dd_value sensor_dropdown) (map snd (dd_options sensor_dropdown))
  /\ exists sel,
       dd_value sensor_dropdown = map sensor_name sel
       /\ fst (update_temp_plot_by_name (dd_value sensor_dropdown)
                                        trend_globals)
          = Ok (mkFigure (map (temp_trace (df_resampled trend_globals)) sel)
                         (Some temp_layout)).
Proof.
  assert (H : incl (dd_value sensor_dropdown)
                   (map snd (dd_options sensor_dropdown)))
    by (intros n Hn; exact Hn).
  split; [exact H|].
  exact (dropdown_selection_is_served (dd_value sensor_dropdown)
                                      trend_globals H).
Defined.

(** X15: a selection with a label that is not one of the three resampled
    columns (the index name [TIMESTAMP], say) makes the first callback raise a
    key error, with no chart and the globals untouched. *)
Theorem unknown_label_raises (names : list string) (g : Globals) :
  (exists n, In n names /\ sensor_of_name n = None) ->
  update_temp_plot_by_name names g = (Raise "KeyError", g).
Proof.
  intros H. rewrite update_temp_plot_by_name_run.
  now rewrite (proj2 (decode_selection_unknown names) H).
Qed.

Lemma unknown_label_raises_witness :
  (exists n, In n ["TempC_target_1331"; "TIMESTAMP"]%string
             /\ sensor_of_name n = None)
  /\ update_temp_plot_by_name ["TempC_target_1331"; "TIMESTAMP"]%string
                              trend_globals
     = (Raise "KeyError", trend_globals).
Proof.
  assert (H : exists n, In n ["TempC_target_1331"; "TIMESTAMP"]%string
                        /\ sensor_of_name n = None).
  { exists "TIMESTAMP"%string. split; [right; left; reflexivity|reflexivity]. }
  split; [exact H|].
  exact (unknown_label_raises _ trend_globals H).
Defined.

(** ** The order of the two channels *)

Lemma fneg_fadd (u v : float) : fadd (fneg u) (fneg v) = fneg (fadd u v).
Proof.
  destruct u as [|a|[pn pd]], v as [|b|[qn qd]]; try reflexivity.
  - now destruct a, b.
  - cbn [fneg fadd]. f_equal. unfold Qplus, Qopp. cbn [Qnum Qden].
    f_equal. ring.
Qed.

Lemma fsub_swap (u v : float) : fsub v u = fneg (fsub u v).
Proof.
  destruct u as [|a|[pn pd]], v as [|b|[qn qd]]; try reflexivity.
  - now destruct a, b.
  - unfold fsub. cbn [fneg fadd]. now rewrite negb_involutive.
  - unfold fsub. cbn [fneg fadd]. f_equal. unfold Qplus, Qopp.
    cbn [Qnum Qden]. f_equal; [ring|apply Pos.mul_comm].
Qed.

Lemma fsub_fneg (u v : float) : fsub (fneg u) (fneg v) = fneg (fsub u v).
Proof. unfold fsub. apply fneg_fadd. Qed.

Lemma fmul_fneg (u : float) : fmul (fneg u) (fneg u) = fmul u u.
Proof.
  destruct u as [|a|[pn pd]]; try reflexivity.
  - now destruct a.
  - cbn [fneg fmul]. f_equal. unfold Qmult, Qopp. cbn [Qnum Qden].
    f_equal. ring.
Qed.

Lemma fabs_fneg (u : float) : fabs (fneg u) = fabs u.
Proof.
  destruct u as [|a|[pn pd]]; try reflexivity.
  cbn [fneg fabs]. f_equal. unfold Qabs, Qopp. cbn [Qnum Qden].
  now rewrite Z.abs_opp.
Qed.

Lemma Qzero_b_opp (q : Q) : Qzero_b (- q) = Qzero_b q.
Proof.
  unfold Qzero_b, Qopp. cbn [Qnum].
  destruct (Qnum q =? 0) eqn:E.
  - apply Z.eqb_eq in E. apply Z.eqb_eq. lia.
  - apply Z.eqb_neq in E. apply Z.eqb_neq. lia.
Qed.

Lemma Qneg_b_opp (q : Q) : Qzero_b q = false -> Qneg_b (- q) = negb (Qneg_b q).
Proof.
  unfold Qzero_b, Qneg_b, Qopp. cbn [Qnum]. intros H. apply Z.eqb_neq in H.
  destruct (Qnum q <? 0) eqn:E.
  - apply Z.ltb_lt in E. apply Z.ltb_ge. lia.
  - apply Z.ltb_ge in E. apply Z.ltb_lt. lia.
Qed.

Lemma fdiv_fneg_l (u v : float) : fdiv (fneg u) v = fneg (fdiv u v).
Proof.
  destruct u as [|a|p], v as [|b|q]; try reflexivity.
  - cbn [fneg fdiv]. now destruct a, (Qneg_b q).
  - cbn [fneg fdiv]. rewrite Qzero_b_opp.
    destruct (Qzero_b q).
    + destruct (Qzero_b p) eqn:Ep; [reflexivity|].
      cbn [fneg]. now rewrite Qneg_b_opp.
    + cbn [fneg]. f_equal. unfold Qdiv, Qmult, Qopp. cbn [Qnum Qden].
      f_equal. ring.
Qed.

Lemma fsum_fneg (l : list float) : fsum (map fneg l) = fneg (fsum l).
Proof.
  unfold fsum. induction l as [|v l IH]; [reflexivity|].
  cbn [map fold_right]. rewrite IH. apply fneg_fadd.
Qed.

Lemma flen_map {A} (f : A -> float) (l : list A) (l' : list float) :
  length l' = length l -> flen (map f l) = flen l'.
Proof. intros H. unfold flen. now rewrite length_map, H. Qed.

Lemma fmean_fneg (l : list float) : fmean (map fneg l) = fneg (fmean l).
Proof.
  unfold fmean. rewrite fsum_fneg, (flen_map fneg l l eq_refl).
  apply fdiv_fneg_l.
Qed.

Lemma var_fneg (l : list float) : _var (map fneg l) = _var l.
Proof.
  unfold _var. cbv zeta.
  rewrite fmean_fneg, (flen_map fneg l l eq_refl), !map_map.
  f_equal. f_equal. apply map_ext. intros v.
  now rewrite fsub_fneg, fmul_fneg.
Qed.

Lemma differences_swap (a b : list float) :
  map (fun p => fsub (fst p) (snd p)) (combine b a)
  = map fneg (map (fun p => fsub (fst p) (snd p)) (combine a b)).
Proof.
  revert b. induction a as [|u a IH]; intros [|v b]; try reflexivity.
  cbn [combine map fst snd]. rewrite IH. f_equal. apply fsub_swap.
Qed.

(** Exchanging the two samples negates the statistic and keeps the
    p-value. *)
Lemma ttest_rel_swap (L : Library) (a b : list float) :
  ttest_rel L b a
  = match ttest_rel L a b with
    | Ok r => Ok (fneg (fst r), snd r)
    | Raise e => Raise e
    end.
Proof.
  unfold ttest_rel. rewrite (Nat.eqb_sym (length b) (length a)).
  destruct (length a =? length b)%nat eqn:E; cbn [negb]; [|reflexivity].
  apply Nat.eqb_eq in E. rewrite <- E.
  destruct (length a =? 0)%nat; [reflexivity|].
  cbv zeta. rewrite differences_swap, var_fneg, fmean_fneg, fdiv_fneg_l.
  unfold flen. rewrite <- E.
  unfold _ttest_finish. cbn [fst snd]. now rewrite fabs_fneg.
Qed.

(** X17: selecting the same two channels in the other order gives the
    statistic with the opposite sign and the same p-value (and swaps the two
    names in the text). *)
Theorem paired_test_antisymmetric
  (L : Library) (g : Globals) (s0 s1 : sensor) :
  exists t p fig fig',
    fst (update_errorbars_plot L [s0; s1] g)
    = Ok (fig, paired_text s0 s1 t p)
    /\ fst (update_errorbars_plot L [s1; s0] g)
       = Ok (fig', paired_text s1 s0 (fneg t) p).
Proof.
  destruct (paired_result_ok L (df_resampled g) s0 s1) as (t & p & Hr).
  assert (Hs : paired_result L (df_resampled g) s1 s0 = Ok (fneg t, p)).
  { unfold paired_result in *.
    rewrite (ttest_rel_swap L (map of_cell (column s0 (df_resampled g)))
                              (map of_cell (column s1 (df_resampled g)))).
    now rewrite Hr. }
  exists t, p. rewrite !update_errorbars_plot_run. cbn [fst summary_text].
  rewrite Hr, Hs. cbn [fst snd].
  eexists. eexists. split; reflexivity.
Qed.

(** * From the sheet to the chart *)

(** X18: after a successful start, the x values of every series of the first
    tab are strictly increasing multiples of five minutes, the same for all
    series, with one y value each. *)
Theorem chart_axis_is_the_grid
  (L : Library) (sheet : list (Reading string)) (g0 g : Globals)
  (selected : list sensor) (fig : Figure) :
  startup L sheet g0 = (Ok tt, g) ->
  fst (update_temp_plot selected g) = Ok fig ->
  Forall (fun tr => x tr = index (df_resampled g)
                    /\ StronglySorted Z.lt (x tr)
                    /\ Forall (fun b => b mod 5 = 0) (x tr)
                    /\ length (y tr) = length (x tr))
         (data fig).
Proof.
  intros Hstart Hfig.
  destruct (startup_df_resampled L sheet g0 g Hstart) as (rows & _ & _ & Hres).
  unfold update_temp_plot in Hfig. unfold bind at 1 in Hfig.
  rewrite temp_loop in Hfig. cbn in Hfig. injection Hfig as <-.
  cbn [data]. apply Forall_forall. intros tr Htr.
  apply in_map_iff in Htr as (s & <- & _). cbn [x y temp_trace].
  split; [reflexivity|].
  destruct (resample_on_grid (replace sentinel (set_index rows)))
    as (t & Ht & Hidx).
  rewrite Hres, Hidx. split; [apply progression_sorted|]. split.
  - apply Forall_forall. intros b Hb.
    apply in_map_iff in Hb as (k & <- & _).
    rewrite (Z.mul_comm 5), Z.mod_add by lia. exact Ht.
  - rewrite <- Hidx. unfold column, index. now rewrite !length_map.
Qed.

Lemma chart_axis_is_the_grid_witness :
  exists fig,
    startup sample_library timed_sheet (mkGlobals [] [])
    = (Ok tt, timed_globals)
    /\ fst (update_temp_plot [TempC_target_1370] timed_globals) = Ok fig
    /\ Forall (fun tr => x tr = index (df_resampled timed_globals)
                         /\ StronglySorted Z.lt (x tr)
                         /\ Forall (fun b => b mod 5 = 0) (x tr)
                         /\ length (y tr) = length (x tr))
              (data fig).
Proof.
  assert (H : startup sample_library timed_sheet (mkGlobals [] [])
              = (Ok tt, timed_globals)) by (vm_compute; reflexivity).
  eexists. split; [exact H|].
  assert (Hf : fst (update_temp_plot [TempC_target_1370] timed_globals)
               = Ok (mkFigure [temp_trace (df_resampled timed_globals)
                                          TempC_target_1370]
                              (Some temp_layout))) by reflexivity.
  split; [exact Hf|].
  exact (chart_axis_is_the_grid sample_library timed_sheet _ _
           [TempC_target_1370] _ H Hf).
Defined.

(** ** The order of the rows of the sheet *)

Lemma fold_min_perm (t t' : Z) (ts ts' : list Z) :
  Permutation (t :: ts) (t' :: ts') ->
  fold_right Z.min t ts = fold_right Z.min t' ts'.
Proof.
  intros H. apply Z.le_antisymm; apply fold_min_in.
  - apply (Permutation_in _ (Permutation_sym H)), fold_min_mem.
  - apply (Permutation_in _ H), fold_min_mem.
Qed.

Lemma fold_max_perm (t t' : Z) (ts ts' : list Z) :
  Permutation (t :: ts) (t' :: ts') ->
  fold_right Z.max t ts = fold_right Z.max t' ts'.
Proof.
  intros H. apply Z.le_antisymm; apply fold_max_in.
  - apply (Permutation_in _ H), fold_max_mem.
  - apply (Permutation_in _ (Permutation_sym H)), fold_max_mem.
Qed.


(** X19: the order of the rows of the table does not matter for the labels
    of the resampled table: two tables with the same rows in a different
    order are resampled to the same labels. *)
Theorem resample_labels_ignore_row_order (d d' : DataFrame) :
  Permutation d d' ->
  index (resample_5T_mean d) = index (resample_5T_mean d').
Proof.
  intros H.
  assert (Hi : Permutation (index d) (index d'))
    by (unfold index; now apply Permutation_map).
  destruct (index d) as [|t ts] eqn:E, (index d') as [|t' ts'] eqn:E'.
  - unfold resample_5T_mean. now rewrite E, E'.
  - apply Permutation_nil in Hi. discriminate.
  - apply Permutation_sym, Permutation_nil in Hi. discriminate.
  - rewrite (resample_index d t ts E), (resample_index d' t' ts' E').
    now rewrite (fold_min_perm t t' ts ts' Hi), (fold_max_perm t t' ts ts' Hi).
Qed.

Lemma resample_labels_ignore_row_order_witness :
  Permutation (set_index scattered_rows) (rev (set_index scattered_rows))
  /\ index (resample_5T_mean (set_index scattered_rows))
     = index (resample_5T_mean (rev (set_index scattered_rows))).
Proof.
  assert (H : Permutation (set_index scattered_rows)
                          (rev (set_index scattered_rows)))
    by apply Permutation_rev.
  split; [exact H|].
  exact (resample_labels_ignore_row_order _ _ H).
Defined.
